(** * picdescbot: the picture/description pipeline of [picdescbot/common.py]

    A shallow embedding of [common.py] and the properties of its retry and
    filter pipeline.

    Modelling conventions.
    - Python 3 semantics.  A [str] is the [string] of its UTF-8 bytes and is
      treated as ASCII text: only [A]..[Z] have a lower-case form, and the
      white space of [str.split()] is the ASCII part of Python's set (codes
      9-13, 28-31 and 32).  Bytes above 127 are carried along unchanged; the
      one place where the program's outcome on them is modelled is the
      format pattern, whose [re.I] makes two such characters match [i].
    - Decoded JSON is the type [json]; Python's [None] is [JNull].  JSON
      numbers are integers ([Z]); floating point numbers are not modelled.
      Subscripting, iteration, [len], comparison and [+] on these values
      raise the exception Python raises.
    - The program talks to three HTTP servers.  Each is an oracle giving the
      n-th response of that server; the [world] counts the requests issued
      so far and records the observable events (requests, sleeps, prints).
      Transport failures of [requests] are not modelled: a request always
      yields a response.  A response body may fail to decode as JSON.
    - The [wordfilter] package is not part of the program: its
      [blacklisted] predicate on strings is a parameter.
    - Python exceptions are the [Raise] outcome of the monad [M].  [while]
      loops recurse on a fuel argument; [OutOfFuel] is the outcome of a loop
      that is still running when the fuel is spent. *)

From Stdlib Require Import String Ascii List ZArith Bool Lia Arith.
Import ListNotations.

Local Open Scope string_scope.
Local Open Scope Z_scope.

(** ** Text: the [str] methods used by the program *)

Module Text.

Definition is_upper (c : ascii) : bool :=
  let n := nat_of_ascii c in (65 <=? n)%nat && (n <=? 90)%nat.

(** [c.lower()] for one character. *)
Definition lower_ascii (c : ascii) : ascii :=
  if is_upper c then ascii_of_nat (nat_of_ascii c + 32) else c.

(** [s.lower()] *)
Fixpoint lower (s : string) : string :=
  match s with
  | EmptyString => EmptyString
  | String c s' => String (lower_ascii c) (lower s')
  end.

(** The characters [str.split()] treats as separators. *)
Definition is_space (c : ascii) : bool :=
  let n := nat_of_ascii c in
  ((9 <=? n)%nat && (n <=? 13)%nat) || ((28 <=? n)%nat && (n <=? 32)%nat).

Definition is_empty (s : string) : bool :=
  match s with EmptyString => true | _ => false end.

(** The scanner behind [s.split()]: [word] is the token read so far. *)
Fixpoint split_from (word : string) (s : string) : list string :=
  match s with
  | EmptyString => if is_empty word then [] else [word]
  | String c s' =>
      if is_space c
      then (if is_empty word then split_from EmptyString s'
            else word :: split_from EmptyString s')
      else split_from (word ++ String c EmptyString) s'
  end.

(** [s.split()]: the maximal runs of non-space characters. *)
Definition split (s : string) : list string := split_from EmptyString s.

(** A token of [split]: not empty and free of white space. *)
Fixpoint spaceless (s : string) : bool :=
  match s with
  | EmptyString => true
  | String c s' => negb (is_space c) && spaceless s'
  end.

Definition token (s : string) : Prop :=
  is_empty s = false /\ spaceless s = true.

(** No character of [s] is an upper-case letter. *)
Fixpoint no_upper (s : string) : bool :=
  match s with
  | EmptyString => true
  | String c s' => negb (is_upper c) && no_upper s'
  end.

(** [sep.join(words)] *)
Fixpoint join (sep : string) (words : list string) : string :=
  match words with
  | [] => EmptyString
  | [w] => w
  | w :: ws => w ++ sep ++ join sep ws
  end.

(** [s.startswith(p)] *)
Fixpoint startswith (p s : string) : bool :=
  match p, s with
  | EmptyString, _ => true
  | String a p', String b s' => Ascii.eqb a b && startswith p' s'
  | String _ _, EmptyString => false
  end.

(** [needle in s] for two strings. *)
Fixpoint contains (needle s : string) : bool :=
  startswith needle s ||
  match s with
  | EmptyString => false
  | String _ s' => contains needle s'
  end.

(** [s.endswith(e)] *)
Fixpoint endswith (e s : string) : bool :=
  String.eqb e s ||
  match s with
  | EmptyString => false
  | String _ s' => endswith e s'
  end.

(** [s[-1]], when there is one. *)
Fixpoint last_char (s : string) : option ascii :=
  match s with
  | EmptyString => None
  | String c EmptyString => Some c
  | String _ s' => last_char s'
  end.

(** The white space [int(s)] skips at both ends of an ASCII string: tab to
    carriage return and the space, not the separators 28 to 31 that
    [str.split()] also knows. *)
Definition is_int_space (c : ascii) : bool :=
  let n := nat_of_ascii c in
  ((9 <=? n)%nat && (n <=? 13)%nat) || (n =? 32)%nat.

Fixpoint lstrip (s : string) : string :=
  match s with
  | String c s' => if is_int_space c then lstrip s' else s
  | EmptyString => EmptyString
  end.

Fixpoint rstrip (s : string) : string :=
  match s with
  | EmptyString => EmptyString
  | String c s' =>
      match rstrip s' with
      | EmptyString => if is_int_space c then EmptyString else String c EmptyString
      | r => String c r
      end
  end.

Definition strip (s : string) : string := rstrip (lstrip s).

Definition digit_of (c : ascii) : option Z :=
  let n := nat_of_ascii c in
  if (48 <=? n)%nat && (n <=? 57)%nat then Some (Z.of_nat (n - 48)) else None.

(** Digits with single underscores between them, as [int] accepts. *)
Fixpoint digits (acc : Z) (after_digit : bool) (s : string) : option Z :=
  match s with
  | EmptyString => if after_digit then Some acc else None
  | String c s' =>
      match digit_of c with
      | Some d => digits (10 * acc + d) true s'
      | None =>
          if Ascii.eqb c "_"%char && after_digit
          then (match s' with
                | EmptyString => None
                | String c' _ =>
                    match digit_of c' with
                    | Some _ => digits acc false s'
                    | None => None
                    end
                end)
          else None
      end
  end.

(** [int(s)] for an ASCII string: [None] stands for [ValueError]. *)
Definition parse_int (s : string) : option Z :=
  match strip s with
  | String "-"%char r => option_map Z.opp (digits 0 false r)
  | String "+"%char r => digits 0 false r
  | r => digits 0 false r
  end.

End Text.

(** ** Python values and exceptions *)

(** A decoded JSON document.  [JDict] lists a dict's items in order. *)
#[warnings="-register-all"]
Inductive json : Type :=
| JNull
| JBool (b : bool)
| JInt (z : Z)
| JStr (s : string)
| JList (l : list json)
| JDict (items : list (string * json)).

Inductive exn : Type :=
| KeyError (key : json)
| IndexError
| TypeError
| ValueError
| AttributeError
| Exception (msg : string).

(** The result of evaluating a Python expression without side effects. *)
Inductive py (A : Type) : Type :=
| Val (a : A)
| Exn (e : exn).
Arguments Val {A} a.
Arguments Exn {A} e.

Module Py.

Fixpoint assoc (k : string) (items : list (string * json)) : option json :=
  match items with
  | [] => None
  | (k', v) :: rest => if String.eqb k k' then Some v else assoc k rest
  end.

(** [v[key]] for a string key. *)
Definition getitem (v : json) (key : string) : py json :=
  match v with
  | JDict items =>
      match assoc key items with
      | Some x => Val x
      | None => Exn (KeyError (JStr key))
      end
  | _ => Exn TypeError
  end.

(** [v[i]] for a non-negative integer index. *)
Definition getitem_int (v : json) (i : nat) : py json :=
  match v with
  | JList l =>
      match nth_error l i with
      | Some x => Val x
      | None => Exn IndexError
      end
  | JStr s =>
      match String.get i s with
      | Some c => Val (JStr (String c EmptyString))
      | None => Exn IndexError
      end
  | JDict _ => Exn (KeyError (JInt (Z.of_nat i)))
  | _ => Exn TypeError
  end.

(** [list(v.values())] *)
Definition values (v : json) : py (list json) :=
  match v with
  | JDict items => Val (map snd items)
  | _ => Exn AttributeError
  end.

(** [l[i]] on a Python list. *)
Definition list_index (l : list json) (i : nat) : py json :=
  match nth_error l i with
  | Some x => Val x
  | None => Exn IndexError
  end.

Fixpoint chars (s : string) : list json :=
  match s with
  | EmptyString => []
  | String c s' => JStr (String c EmptyString) :: chars s'
  end.

(** The elements a [for] loop over [v] visits. *)
Definition iter (v : json) : py (list json) :=
  match v with
  | JList l => Val l
  | JDict items => Val (map (fun kv => JStr (fst kv)) items)
  | JStr s => Val (chars s)
  | _ => Exn TypeError
  end.

(** Truth value of [v] in a condition. *)
Definition truthy (v : json) : bool :=
  match v with
  | JNull => false
  | JBool b => b
  | JInt z => negb (z =? 0)
  | JStr s => negb (Text.is_empty s)
  | JList l => match l with [] => false | _ => true end
  | JDict d => match d with [] => false | _ => true end
  end.

Definition is_none (v : json) : bool :=
  match v with JNull => true | _ => false end.

(** The integer behind a number ([bool] is a subclass of [int]). *)
Definition as_int (v : json) : py Z :=
  match v with
  | JInt z => Val z
  | JBool b => Val (if b then 1 else 0)
  | _ => Exn TypeError
  end.

(** [v <= n] and [v > n] against an integer literal. *)
Definition le (v : json) (n : Z) : py bool :=
  match as_int v with Val z => Val (z <=? n) | Exn e => Exn e end.

Definition gt (v : json) (n : Z) : py bool :=
  match as_int v with Val z => Val (n <? z) | Exn e => Exn e end.

(** [v != s] against a string literal. *)
Definition ne_str (v : json) (s : string) : bool :=
  match v with
  | JStr t => negb (String.eqb t s)
  | _ => true
  end.

(** [len(v)] *)
Definition len (v : json) : py Z :=
  match v with
  | JStr s => Val (Z.of_nat (String.length s))
  | JList l => Val (Z.of_nat (List.length l))
  | JDict d => Val (Z.of_nat (List.length d))
  | _ => Exn TypeError
  end.

(** [s + v] with a string on the left: only a string can be added. *)
Definition str_add (s : string) (v : json) : py string :=
  match v with
  | JStr t => Val (s ++ t)
  | _ => Exn TypeError
  end.

(** Sequencing of two evaluations. *)
Definition and_then {A B} (r : py A) (k : A -> py B) : py B :=
  match r with
  | Val a => k a
  | Exn e => Exn e
  end.

(** [v[k1][k2]...] *)
Fixpoint path (v : json) (keys : list string) : py json :=
  match keys with
  | [] => Val v
  | k :: rest => and_then (getitem v k) (fun x => path x rest)
  end.

(** [v.lower()]: JSON values other than strings have no such method. *)
Definition str_lower (v : json) : py string :=
  match v with
  | JStr s => Val (Text.lower s)
  | _ => Exn AttributeError
  end.

End Py.

(** ** HTTP responses *)

Record response : Type := {
  status_code : Z;
  headers : list (string * string);
  content : string;              (* the body bytes *)
  decoded : option json          (* what [.json()] returns; [None]: it raises *)
}.

(** [response.headers] is case-insensitive in its keys. *)
Fixpoint header (name : string) (hs : list (string * string)) : option string :=
  match hs with
  | [] => None
  | (k, v) :: rest =>
      if String.eqb (Text.lower k) (Text.lower name) then Some v
      else header name rest
  end.

(** ** The world and the monad of effects *)

Inductive event : Type :=
| EvGet (url : string)
| EvPost (url : string) (body : json)
| EvSleep (secs : Z)
| EvPrint (text : string) (args : list json).

Record world : Type := {
  wiki_i : nat;            (* requests sent to the media API *)
  cv_i : nat;              (* requests sent to the vision API *)
  img_i : nat;             (* requests sent to image hosts *)
  trace : list event       (* the events so far, newest first *)
}.

Inductive outcome (A : Type) : Type :=
| Ret (a : A)
| Raise (e : exn)
| OutOfFuel.
Arguments Ret {A} a.
Arguments Raise {A} e.
Arguments OutOfFuel {A}.

Definition M (A : Type) : Type := world -> outcome A * world.

Definition ret {A} (a : A) : M A := fun w => (Ret a, w).

Definition raise {A} (e : exn) : M A := fun w => (Raise e, w).

Definition out_of_fuel {A} : M A := fun w => (OutOfFuel, w).

Definition bind {A B} (m : M A) (k : A -> M B) : M B :=
  fun w =>
    match m w with
    | (Ret a, w') => k a w'
    | (Raise e, w') => (Raise e, w')
    | (OutOfFuel, w') => (OutOfFuel, w')
    end.

Notation "x <- m ;; k" := (bind m (fun x => k))
  (at level 61, m at next level, right associativity).
Notation "m ;; k" := (bind m (fun _ => k))
  (at level 61, right associativity).

Definition lift {A} (r : py A) : M A :=
  match r with
  | Val a => ret a
  | Exn e => raise e
  end.

Definition emit (e : event) : M unit :=
  fun w => (Ret tt, {| wiki_i := wiki_i w; cv_i := cv_i w; img_i := img_i w;
                       trace := e :: trace w |}).

(** [print(text)], with the values formatted into it, and [time.sleep]. *)
Definition print (text : string) (args : list json) : M unit :=
  emit (EvPrint text args).

Definition sleep (secs : Z) : M unit := emit (EvSleep secs).

(** [response.json()] *)
Definition response_json (r : response) : M json :=
  match decoded r with
  | Some j => ret j
  | None => raise ValueError
  end.

(** ** Module constants *)

Definition MEDIAWIKI_API : string := "https://commons.wikimedia.org/w/api.php".
Definition CVAPI : string := "https://api.projectoxford.ai/vision/v1.0/analyze".

Definition newline : string := String (ascii_of_nat 10) EmptyString.

(** The UTF-8 bytes of U+0130 and U+0131, the two characters outside ASCII
    that [re.I] lets the letter [i] of a pattern match. *)
Definition dotted_capital_i : string :=
  String (ascii_of_nat 196) (String (ascii_of_nat 176) EmptyString).
Definition dotless_small_i : string :=
  String (ascii_of_nat 196) (String (ascii_of_nat 177) EmptyString).

(** [supported_formats = re.compile('\.(png|jpe?g|gif)$', re.I)].
    [match_here s]: the pattern matches the whole of [s], a dot, one of the
    alternatives in any letter case, and [$], which holds at the end of the
    string and also just before a line feed that ends the string.  Under
    [re.I] the [i] of [gif] is also matched by U+0130 and by U+0131; no
    other character outside ASCII matches a letter of the pattern. *)
Definition format_alternatives : list string :=
  ["png"; "jpg"; "jpeg"; "gif";
   "g" ++ dotted_capital_i ++ "f"; "g" ++ dotless_small_i ++ "f"].

Definition match_here (s : string) : bool :=
  existsb (fun alt =>
             String.eqb (Text.lower s) ("." ++ alt) ||
             String.eqb (Text.lower s) ("." ++ alt ++ newline))
          format_alternatives.

(** [supported_formats.search(s)]: a match starting at some position. *)
Fixpoint supported_formats_search (s : string) : bool :=
  match_here s ||
  match s with
  | EmptyString => false
  | String _ s' => supported_formats_search s'
  end.

Definition category_blacklist : list string := ["september 11"].

Definition gendered_words : list (string * string) :=
  [("woman", "person"); ("man", "person"); ("women", "people"); ("men", "people")].

(** [gendered_words[word] if word in gendered_words else word] *)
Fixpoint replace_word (table : list (string * string)) (word : string) : string :=
  match table with
  | [] => word
  | (k, v) :: rest => if String.eqb word k then v else replace_word rest word
  end.

Definition dquote : string := String (ascii_of_nat 34) EmptyString.

(** [gender_neutralize(phrase)] *)
Definition gender_neutralize (phrase : json) : M string :=
  lowered <- lift (Py.str_lower phrase) ;;
  let neutralized :=
    Text.join " " (map (replace_word gendered_words) (Text.split lowered)) in
  (if negb (match phrase with JStr p => String.eqb neutralized p | _ => false end)
   then print ("Gender neutralized: " ++ dquote ++ "{0}" ++ dquote ++ " => "
                ++ dquote ++ "{1}" ++ dquote) [phrase; JStr neutralized]
   else ret tt) ;;
  ret neutralized.

(** "Case-insensitively", as the specification says it of the gendered
    nouns, stated on character codes: the same character, or a capital
    letter [A]..[Z] and its small letter, 32 codes higher. *)
Definition same_letter (c d : ascii) : bool :=
  let n := nat_of_ascii c in
  let m := nat_of_ascii d in
  ((n =? m) ||
   ((65 <=? n) && (n <=? 90) && (m =? n + 32)) ||
   ((65 <=? m) && (m <=? 90) && (n =? m + 32)))%nat.

(** Two words that differ at most in the case of their letters. *)
Fixpoint same_word (a b : string) : bool :=
  match a, b with
  | EmptyString, EmptyString => true
  | String c a', String d b' => same_letter c d && same_word a' b'
  | _, _ => false
  end.

(** A word of small letters [a]..[z]. *)
Fixpoint small_letters (s : string) : bool :=
  match s with
  | EmptyString => true
  | String c s' =>
      ((97 <=? nat_of_ascii c) && (nat_of_ascii c <=? 122))%nat && small_letters s'
  end.

(** The words [gender_neutralize] joins, for a string argument. *)
Definition neutral_tokens (phrase : string) : list string :=
  map (replace_word gendered_words) (Text.split (Text.lower phrase)).

(** ** The program, over its environment *)

(** What [describe_picture] hands back: [None] or a decoded JSON value (both
    [json]), or the raw bytes of an image body. *)
Inductive pyval : Type :=
| PJson (j : json)
| PBytes (b : string).

Definition pyval_truthy (v : pyval) : bool :=
  match v with
  | PJson j => Py.truthy j
  | PBytes b => negb (Text.is_empty b)
  end.

Definition pyval_is_none (v : pyval) : bool :=
  match v with
  | PJson j => Py.is_none j
  | PBytes _ => false
  end.

(** [result[key]]: bytes cannot be indexed by a string. *)
Definition pyval_getitem (v : pyval) (key : string) : py json :=
  match v with
  | PJson j => Py.getitem j key
  | PBytes _ => Exn TypeError
  end.

(** [class Result] *)
Record Result : Type := {
  caption : string;
  tags : json;
  url : json;
  source_url : json
}.

Section Program.

(** [word_filter.blacklisted] of the [wordfilter] package, with the word
    list the module configures, on a string. *)
Variable blacklisted : string -> bool.

(** The servers: the n-th response of the media API, of the vision API
    (given the subscription key and the posted url) and of the image host
    (given the url). *)
Variable mediawiki : nat -> response.
Variable cvapi : nat -> string -> json -> response.
Variable imghost : nat -> string -> response.

(** [word_filter.blacklisted(v)]: the package lower-cases its argument. *)
Definition word_filter_blacklisted (v : json) : M bool :=
  match v with
  | JStr s => ret (blacklisted s)
  | _ => raise AttributeError
  end.

Definition requests_get_mediawiki : M response :=
  fun w => (Ret (mediawiki (wiki_i w)),
            {| wiki_i := S (wiki_i w); cv_i := cv_i w; img_i := img_i w;
               trace := EvGet MEDIAWIKI_API :: trace w |}).

Definition requests_post_cvapi (apikey : string) (u : json) : M response :=
  fun w => (Ret (cvapi (cv_i w) apikey u),
            {| wiki_i := wiki_i w; cv_i := S (cv_i w); img_i := img_i w;
               trace := EvPost CVAPI (JDict [("url", u)]) :: trace w |}).

Definition requests_get_image (u : string) : M response :=
  fun w => (Ret (imghost (img_i w) u),
            {| wiki_i := wiki_i w; cv_i := cv_i w; img_i := S (img_i w);
               trace := EvGet u :: trace w |}).

(** [list(response['query']['pages'].values())[0]], the page of the reply,
    and [page['imageinfo'][0]], the candidate picture. *)
Definition first_page (body : json) : py json :=
  Py.and_then (Py.path body ["query"; "pages"]) (fun pages =>
  Py.and_then (Py.values pages) (fun vals => Py.list_index vals 0)).

Definition candidate (body : json) : py json :=
  Py.and_then (first_page body) (fun page =>
  Py.and_then (Py.getitem page "imageinfo") (fun infos =>
  Py.getitem_int infos 0)).

(** The inner [for] of the category check, for one category: [true] when
    the function has returned [None] from inside the loop. *)
Fixpoint scan_blacklist (category : json) (bl : list string) : M bool :=
  match bl with
  | [] => ret false
  | blacklisted_category :: bl' =>
      title <- lift (Py.getitem category "title") ;;
      lowered <- lift (Py.str_lower title) ;;
      if Text.contains blacklisted_category lowered
      then
        name <- lift (Py.getitem category "name") ;;
        msg <- lift (Py.str_add "discarded, category blacklist: " name) ;;
        print msg [] ;;
        ret true
      else scan_blacklist category bl'
  end.

(** The outer [for category in page['categories']]. *)
Fixpoint scan_categories (categories : list json) : M bool :=
  match categories with
  | [] => ret false
  | category :: rest =>
      returned <- scan_blacklist category category_blacklist ;;
      if returned then ret true else scan_categories rest
  end.

(** [get_random_picture()]: the accepted [imageinfo], or [JNull]. *)
Definition get_random_picture : M json :=
  r <- requests_get_mediawiki ;;
  response <- response_json r ;;
  query <- lift (Py.getitem response "query") ;;
  pages <- lift (Py.getitem query "pages") ;;
  vals <- lift (Py.values pages) ;;
  page <- lift (Py.list_index vals 0) ;;
  infos <- lift (Py.getitem page "imageinfo") ;;
  imageinfo <- lift (Py.getitem_int infos 0) ;;
  extra_metadata <- lift (Py.getitem imageinfo "extmetadata") ;;
  title <- lift (Py.getitem page "title") ;;
  bad <- word_filter_blacklisted title ;;
  if bad then
    title <- lift (Py.getitem page "title") ;;
    msg <- lift (Py.str_add "badword " title) ;;
    print msg [] ;;
    ret JNull
  else
  object_name <- lift (Py.getitem extra_metadata "ObjectName") ;;
  value <- lift (Py.getitem object_name "value") ;;
  bad <- word_filter_blacklisted value ;;
  if bad then
    object_name <- lift (Py.getitem extra_metadata "ObjectName") ;;
    value <- lift (Py.getitem object_name "value") ;;
    msg <- lift (Py.str_add "badword " value) ;;
    print msg [] ;;
    ret JNull
  else
  restrictions <- lift (Py.getitem extra_metadata "Restrictions") ;;
  value <- lift (Py.getitem restrictions "value") ;;
  bad <- word_filter_blacklisted value ;;
  if bad then
    object_name <- lift (Py.getitem extra_metadata "ObjectName") ;;
    value <- lift (Py.getitem object_name "value") ;;
    msg <- lift (Py.str_add "badword " value) ;;
    print msg [] ;;
    ret JNull
  else
  categories <- lift (Py.getitem page "categories") ;;
  categories <- lift (Py.iter categories) ;;
  returned <- scan_categories categories ;;
  if returned then ret JNull else
  mediatype <- lift (Py.getitem imageinfo "mediatype") ;;
  if Py.ne_str mediatype "BITMAP" then ret JNull else
  width <- lift (Py.getitem imageinfo "width") ;;
  narrow <- lift (Py.le width 50) ;;
  small <- (if narrow then ret true
            else height <- lift (Py.getitem imageinfo "height") ;;
                 lift (Py.le height 50)) ;;
  if small then ret JNull else
  u <- lift (Py.getitem imageinfo "url") ;;
  found <- (match u with
            | JStr s => ret (supported_formats_search s)
            | _ => raise TypeError
            end) ;;
  if negb found then ret JNull else ret imageinfo.

(** A category none of whose blacklisted substrings occurs in its
    lower-cased title. *)
Definition clean_category (category : json) : Prop :=
  exists title,
    Py.getitem category "title" = Val (JStr title) /\
    Forall (fun b => Text.contains b (Text.lower title) = false)
           category_blacklist.

(** The seven filters of [get_random_picture], all passed by the candidate
    [imageinfo] of the reply [body]. *)
Definition passed_filters (body imageinfo : json) : Prop :=
  exists page title object_name restrictions categories width height u,
    first_page body = Val page /\
    candidate body = Val imageinfo /\
    Py.getitem page "title" = Val (JStr title) /\
    blacklisted title = false /\
    Py.path imageinfo ["extmetadata"; "ObjectName"; "value"]
      = Val (JStr object_name) /\
    blacklisted object_name = false /\
    Py.path imageinfo ["extmetadata"; "Restrictions"; "value"]
      = Val (JStr restrictions) /\
    blacklisted restrictions = false /\
    Py.and_then (Py.getitem page "categories") Py.iter = Val categories /\
    Forall clean_category categories /\
    Py.getitem imageinfo "mediatype" = Val (JStr "BITMAP") /\
    Py.getitem imageinfo "width" = Val (JInt width) /\ 50 < width /\
    Py.getitem imageinfo "height" = Val (JInt height) /\ 50 < height /\
    Py.getitem imageinfo "url" = Val (JStr u) /\
    supported_formats_search u = true.

(** *** [class CVAPIClient] *)

(** [self.apikey] *)
Variable apikey : string.

(** The [200]/[201] branch of [describe_picture]: the new [result]. *)
Definition read_body (r : response) (result : pyval) : M pyval :=
  empty <- (match header "content-length" (headers r) with
            | Some v =>
                match Text.parse_int v with
                | Some n => ret (n =? 0)
                | None => raise ValueError
                end
            | None => ret false
            end) ;;
  if empty then ret (PJson JNull)
  else
    match header "content-type" (headers r) with
    | Some ct =>
        if Text.contains "application/json" (Text.lower ct)
        then (if negb (Text.is_empty (content r))
              then j <- response_json r ;; ret (PJson j)
              else ret (PJson JNull))
        else if Text.contains "image" (Text.lower ct)
        then ret (PBytes (content r))
        else ret result
    | None => ret result
    end.

(** The [while retries < 15 and not result] loop of [describe_picture].
    [print(v)] of a value is recorded as the text [%s] with argument [v]. *)
Fixpoint describe_loop (fuel : nat) (u : json) (retries : Z) (result : pyval)
  {struct fuel} : M pyval :=
  if (retries <? 15) && negb (pyval_truthy result) then
    match fuel with
    | O => out_of_fuel
    | S fuel' =>
        r <- requests_post_cvapi apikey u ;;
        if status_code r =? 429 then
          body <- response_json r ;;
          print "Message: %s" [body] ;;
          if retries <? 15 then
            sleep 2 ;;
            describe_loop fuel' u (retries + 1) result
          else
            print "Error: failed after retrying!" [] ;;
            describe_loop fuel' u retries result
        else if (status_code r =? 200) || (status_code r =? 201) then
          result' <- read_body r result ;;
          describe_loop fuel' u retries result'
        else
          print "Error code: %d" [JInt (status_code r)] ;;
          print "url: %s" [u] ;;
          body <- response_json r ;;
          print "%s" [body] ;;
          sleep (10 + (retries + 1) * 3) ;;
          describe_loop fuel' u (retries + 1) result
    end
  else ret result.

(** [describe_picture(self, url)] *)
Definition describe_picture (fuel : nat) (u : json) : M pyval :=
  describe_loop fuel u 0 (PJson JNull).

(** The [while pic is None] loop of [get_picture_and_description]. *)
Fixpoint fetch_loop (fuel : nat) (pic : json) {struct fuel} : M json :=
  if Py.is_none pic then
    match fuel with
    | O => out_of_fuel
    | S fuel' =>
        pic' <- get_random_picture ;;
        (if Py.is_none pic' then sleep 1 else ret tt) ;;
        fetch_loop fuel' pic'
    end
  else ret pic.

(** The [if result is not None] block: [Some] for the [return Result(..)]
    inside it, [None] when control falls through to [retries += 1]. *)
Definition judge (pic u : json) (result : pyval) : M (option Result) :=
  if negb (pyval_is_none result) then
    description <- lift (pyval_getitem result "description") ;;
    adult <- lift (pyval_getitem result "adult") ;;
    flag <- lift (Py.getitem adult "isAdultContent") ;;
    if negb (Py.truthy flag) then
      captions <- lift (Py.getitem description "captions") ;;
      n <- lift (Py.len captions) ;;
      if 0 <? n then
        captions <- lift (Py.getitem description "captions") ;;
        first <- lift (Py.getitem_int captions 0) ;;
        text <- lift (Py.getitem first "text") ;;
        neutral <- gender_neutralize text ;;
        if negb (blacklisted neutral) then
          tgs <- lift (Py.getitem description "tags") ;;
          src <- lift (Py.getitem pic "descriptionshorturl") ;;
          ret (Some {| caption := neutral; tags := tgs; url := u;
                       source_url := src |})
        else
          print ("caption discarded due to blacklist: " ++ neutral) [] ;;
          ret None
      else
        print "No caption for url: {0}" [u] ;;
        ret None
    else
      print "Adult content. Discarded." [] ;;
      print "%s" [u] ;;
      print "%s" [description] ;;
      ret None
  else ret None.

(** One pass through the body of the outer loop, up to [retries += 1]. *)
Definition attempt (fuel : nat) (pic : json) : M (option Result) :=
  pic <- fetch_loop fuel pic ;;
  u <- lift (Py.getitem pic "url") ;;
  size <- lift (Py.getitem pic "size") ;;
  big <- lift (Py.gt size 4000000) ;;
  u <- (if big then lift (Py.getitem pic "thumburl") else ret u) ;;
  result <- describe_picture fuel u ;;
  judge pic u result.

(** The [while retries <= max_retries] loop; [n] is its fuel. *)
Fixpoint retry_loop (fuel n : nat) (max_retries retries : Z) (pic : json)
  {struct n} : M Result :=
  if retries <=? max_retries then
    match n with
    | O => out_of_fuel
    | S n' =>
        r <- attempt fuel pic ;;
        match r with
        | Some res => ret res
        | None =>
            print "Not good, retrying..." [] ;;
            sleep 3 ;;
            retry_loop fuel n' max_retries (retries + 1) JNull
        end
    end
  else raise (Exception "Maximum retries exceeded, no good picture").

(** [get_picture_and_description(self, max_retries=20)] *)
Definition get_picture_and_description (fuel : nat) (max_retries : Z) : M Result :=
  retry_loop fuel fuel max_retries 0 JNull.

(** *** [Result.download_picture] *)

(** The [while retries <= 20] loop. *)
Fixpoint download_loop (fuel : nat) (u : string) (retries : Z)
  {struct fuel} : M string :=
  if retries <=? 20 then
    match fuel with
    | O => out_of_fuel
    | S fuel' =>
        (if 0 <? retries then print "Trying again..." [] else ret tt) ;;
        r <- requests_get_image u ;;
        if status_code r =? 200 then ret (content r)
        else
          msg <- lift (Py.str_add "Fetching picture failed: "
                                  (JInt (status_code r))) ;;
          print msg [] ;;
          sleep 1 ;;
          download_loop fuel' u (retries + 1)
    end
  else raise (Exception "Maximum retries exceeded when downloading a picture").

(** [download_picture(self)]: the bytes wrapped by the [BytesIO]. *)
Definition download_picture (fuel : nat) (self : Result) : M string :=
  msg <- lift (Py.str_add "downloading " (url self)) ;;
  print msg [] ;;
  match url self with
  | JStr u => download_loop fuel u 0
  | _ => raise TypeError
  end.

End Program.

(** ** Observations on the trace *)

(** The message that ends a failed cycle of [get_picture_and_description]. *)
Definition is_retry_notice (e : event) : bool :=
  match e with
  | EvPrint text [] => String.eqb text "Not good, retrying..."
  | _ => false
  end.

(** The number of failed cycles recorded so far. *)
Definition cycles (w : world) : nat :=
  List.length (filter is_retry_notice (trace w)).

(** A computation that ends no cycle. *)
Definition quiet {A} (m : M A) : Prop :=
  forall w a w', m w = (Ret a, w') -> cycles w' = cycles w.

Definition message_of (r : response) : json :=
  match decoded r with
  | Some j => j
  | None => JNull
  end.

(** The events of one rate-limited round of [describe_picture], newest
    first: the request, the printed message and the sleep of 2. *)
Definition rate_limited_round (cvapi : nat -> string -> json -> response)
    (apikey : string) (u : json) (k : nat) : list event :=
  [EvSleep 2;
   EvPrint "Message: %s" [message_of (cvapi k apikey u)];
   EvPost CVAPI (JDict [("url", u)])].

(** The extensions the format filter names. *)
Definition format_suffixes : list string := [".png"; ".jpg"; ".jpeg"; ".gif"].

(** The endings the pattern matches, lower-cased. *)
Definition format_spellings : list string :=
  map (fun alt => "." ++ alt) format_alternatives.

(** ** Sample environments

    Concrete servers and documents on which the definitions are run. *)

Module Samples.

(** [Wordfilter.blacklisted]: some listed word occurs in the lower-cased
    text; the list here holds the word the module adds. *)
Definition word_filter (s : string) : bool :=
  existsb (fun badword => Text.contains badword (Text.lower s)) ["nazi"].

Definition start : world :=
  {| wiki_i := 0; cv_i := 0; img_i := 0; trace := [] |}.

Definition imageinfo (u : string) (width height : Z) (mediatype : string) : json :=
  JDict [("size", JInt 123456); ("width", JInt width); ("height", JInt height);
         ("thumburl", JStr "https://upload.example.org/thumb/1080px-harbour.jpg");
         ("url", JStr u);
         ("descriptionshorturl", JStr "https://commons.example.org/w/index.php?curid=1");
         ("extmetadata",
          JDict [("ObjectName", JDict [("value", JStr "Harbour at dusk")]);
                 ("Restrictions", JDict [("value", JStr "")])]);
         ("mediatype", JStr mediatype)].

Definition page (categories : list json) (info : json) : json :=
  JDict [("pageid", JInt 1); ("ns", JInt 6);
         ("title", JStr "File:Harbour at dusk.jpg");
         ("imageinfo", JList [info]); ("categories", JList categories)].

(** The reply of the media API carrying one page. *)
Definition reply (pg : json) : response :=
  {| status_code := 200;
     headers := [("Content-Type", "application/json; charset=utf-8")];
     content := "{...}";
     decoded := Some (JDict [("batchcomplete", JStr "");
                             ("query", JDict [("pages", JDict [("1", pg)])])]) |}.

(** A category entry as the media API sends it: a namespace and a title. *)
Definition category (title : string) : json :=
  JDict [("ns", JInt 14); ("title", JStr title)].

Definition harbours : json := category "Category:Harbours".
Definition attacks : json := category "Category:September 11 attacks".

(** The same category in a document that also carries a [name] entry. *)
Definition attacks_named : json :=
  JDict [("ns", JInt 14); ("title", JStr "Category:September 11 attacks");
         ("name", JStr "September 11 attacks")].

Definition good_info : json :=
  imageinfo "https://upload.example.org/harbour.JPG" 800 600 "BITMAP".

Definition good_page : json := page [harbours] good_info.

(** A url whose last character is a line feed after [.png]. *)
Definition newline_url : string := "https://upload.example.org/harbour.png" ++ newline.

Definition newline_info : json := imageinfo newline_url 800 600 "BITMAP".

(** A url that ends in [.g], U+0131 (dotless i, in UTF-8) and [f]. *)
Definition dotless_url : string :=
  "https://upload.example.org/harbour.g" ++ dotless_small_i ++ "f".

Definition dotless_info : json := imageinfo dotless_url 800 600 "BITMAP".

Definition wiki_good : nat -> response := fun _ => reply good_page.

(** Replies of the vision API. *)
Definition json_headers : list (string * string) :=
  [("Content-Length", "142"); ("Content-Type", "application/json; charset=utf-8")].

Definition analysis (text : string) (is_adult : bool) : json :=
  JDict [("description",
          JDict [("tags", JList [JStr "outdoor"; JStr "water"]);
                 ("captions", JList [JDict [("text", JStr text);
                                            ("confidence", JInt 1)]])]);
         ("adult", JDict [("isAdultContent", JBool is_adult)])].

Definition described (text : string) (is_adult : bool) : response :=
  {| status_code := 200; headers := json_headers; content := "{...}";
     decoded := Some (analysis text is_adult) |}.

Definition rate_limited : response :=
  {| status_code := 429;
     headers := [("Content-Type", "application/json")];
     content := "{...}";
     decoded := Some (JDict [("statusCode", JInt 429);
                             ("message", JStr "Rate limit is exceeded.")]) |}.

(** A 429 reply whose body is not JSON, as a gateway in front of the API
    sends it. *)
Definition rate_limited_plain : response :=
  {| status_code := 429;
     headers := [("Content-Type", "text/plain")];
     content := "Too Many Requests";
     decoded := None |}.

Definition empty_ok : response :=
  {| status_code := 200; headers := [("Content-Length", "0")];
     content := ""; decoded := None |}.

Definition cv_rate_limited : nat -> string -> json -> response :=
  fun _ _ _ => rate_limited.

Definition cv_rate_limited_plain : nat -> string -> json -> response :=
  fun _ _ _ => rate_limited_plain.


Definition cv_fine : nat -> string -> json -> response :=
  fun _ _ _ => described "a woman and two men" false.

(** An empty [200] first, a description on the second request. *)
Definition cv_empty_then_fine : nat -> string -> json -> response :=
  fun n _ _ => match n with
               | O => empty_ok
               | S _ => described "a boat in a harbour" false
               end.

Definition cv_always_empty : nat -> string -> json -> response :=
  fun _ _ _ => empty_ok.

(** Replies of the image host. *)
Definition picture_bytes : string := "GIF89a...".

Definition served : response :=
  {| status_code := 200; headers := [("Content-Type", "image/gif")];
     content := picture_bytes; decoded := None |}.

Definition server_error : response :=
  {| status_code := 500; headers := []; content := "Internal Server Error";
     decoded := None |}.

Definition img_always_500 : nat -> string -> response := fun _ _ => server_error.

(** [500] four times, [200] on the fifth request. *)
Definition img_fifth_ok : nat -> string -> response :=
  fun n _ => if (n <? 4)%nat then server_error else served.

Definition img_ok : nat -> string -> response := fun _ _ => served.

Definition harbour_url : json := JStr "https://upload.example.org/harbour.JPG".

Definition a_result : Result :=
  {| caption := "a boat in a harbour"; tags := JList [JStr "water"];
     url := JStr "https://upload.example.org/harbour.gif";
     source_url := JStr "https://commons.example.org/w/index.php?curid=1" |}.

Definition key : string := "0123456789abcdef".

End Samples.

(** ** Observations used by the further properties *)

Definition is_print (e : event) : bool :=
  match e with
  | EvPrint _ _ => true
  | _ => false
  end.

(** A computation that sends no request, does not sleep, and prints at most
    [n] lines, however it ends. *)
Definition logs_at_most (n : nat) {A} (m : M A) : Prop :=
  forall w o w',
    m w = (o, w') ->
    wiki_i w' = wiki_i w /\ cv_i w' = cv_i w /\ img_i w' = img_i w /\
    exists prints,
      trace w' = (prints ++ trace w)%list /\
      forallb is_print prints = true /\
      (List.length prints <= n)%nat.

(** The events of one round of [describe_picture] that ends in a retry,
    newest first: the reply [r] has an error status and the counter stands
    at [retries] when the request is sent. *)
Definition failed_round (r : response) (u : json) (retries : Z) : list event :=
  if status_code r =? 429 then
    [EvSleep 2;
     EvPrint "Message: %s" [message_of r];
     EvPost CVAPI (JDict [("url", u)])]
  else
    [EvSleep (10 + (retries + 1) * 3);
     EvPrint "%s" [message_of r];
     EvPrint "url: %s" [u];
     EvPrint "Error code: %d" [JInt (status_code r)];
     EvPost CVAPI (JDict [("url", u)])].

(** [k] such rounds in a row, from request number [i] on. *)
Fixpoint failed_rounds (cvapi : nat -> string -> json -> response)
    (apikey : string) (u : json) (i : nat) (retries : Z) (k : nat) : list event :=
  match k with
  | O => []
  | S k' =>
      (failed_rounds cvapi apikey u (S i) (retries + 1) k'
       ++ failed_round (cvapi i apikey u) u retries)%list
  end.

(** The body of a reply is announced as not empty: there is no
    content-length header, or it holds a number other than 0. *)
Definition announces_body (r : response) : Prop :=
  header "content-length" (headers r) = None \/
  exists v n, header "content-length" (headers r) = Some v /\
              Text.parse_int v = Some n /\ n <> 0.

Definition is_sleep (e : event) : bool :=
  match e with
  | EvSleep _ => true
  | _ => false
  end.

(** An event that is not a sleep of less than 2 or more than 55. *)
Definition short_sleep (e : event) : bool :=
  match e with
  | EvSleep secs => (2 <=? secs) && (secs <=? 55)
  | _ => true
  end.

(** The world once a failed cycle has printed its notice and slept. *)
Definition after_notice (w : world) : world :=
  {| wiki_i := wiki_i w; cv_i := cv_i w; img_i := img_i w;
     trace := EvSleep 3 :: EvPrint "Not good, retrying..." [] :: trace w |}.

(** [rejected_cycles cycle k w w']: from [w], [k] cycles in a row end without
    a result, each followed by the notice and the sleep, and leave [w']. *)
Inductive rejected_cycles (cycle : M (option Result))
  : nat -> world -> world -> Prop :=
| rejected_none : forall w, rejected_cycles cycle 0 w w
| rejected_more : forall k w w1 w',
    cycle w = (Ret None, w1) ->
    rejected_cycles cycle k (after_notice w1) w' ->
    rejected_cycles cycle (S k) w w'.

(** A phrase made of white space only. *)
Fixpoint only_spaces (s : string) : bool :=
  match s with
  | EmptyString => true
  | String c s' => Text.is_space c && only_spaces s'
  end.

(** ** Further sample environments *)

Module MoreSamples.

(** A page whose file name holds a listed word. *)
Definition banned_title_page : json :=
  JDict [("pageid", JInt 2); ("ns", JInt 6);
         ("title", JStr "File:Nazi rally 1936.jpg");
         ("imageinfo", JList [Samples.good_info]);
         ("categories", JList [Samples.harbours])].

(** A picture whose usage restrictions hold a listed word. *)
Definition restricted_info : json :=
  JDict [("size", JInt 123456); ("width", JInt 800); ("height", JInt 600);
         ("thumburl", JStr "https://upload.example.org/thumb/1080px-flag.jpg");
         ("url", JStr "https://upload.example.org/flag.jpg");
         ("descriptionshorturl", JStr "https://commons.example.org/w/index.php?curid=3");
         ("extmetadata",
          JDict [("ObjectName", JDict [("value", JStr "Flag on a pole")]);
                 ("Restrictions", JDict [("value", JStr "insignia|nazi symbol")])]);
         ("mediatype", JStr "BITMAP")].

Definition wiki_banned_title : nat -> response :=
  fun _ => Samples.reply banned_title_page.

Definition wiki_restricted : nat -> response :=
  fun _ => Samples.reply (Samples.page [Samples.harbours] restricted_info).

(** A media API that only ever offers drawings. *)
Definition wiki_drawings : nat -> response :=
  fun _ => Samples.reply
             (Samples.page [Samples.harbours]
                (Samples.imageinfo "https://upload.example.org/plan.png"
                                   800 600 "DRAWING")).

Definition unavailable : response :=
  {| status_code := 503;
     headers := [("Content-Type", "application/json")];
     content := "{...}";
     decoded := Some (JDict [("statusCode", JInt 503);
                             ("message", JStr "Service unavailable.")]) |}.

(** 429 and 503 in turn. *)
Definition cv_flaky : nat -> string -> json -> response :=
  fun n _ _ => if Nat.even n then Samples.rate_limited else unavailable.

Definition image_reply : response :=
  {| status_code := 200;
     headers := [("Content-Length", "9"); ("Content-Type", "image/jpeg")];
     content := "JFIF....."; decoded := None |}.

Definition cv_image : nat -> string -> json -> response :=
  fun _ _ _ => image_reply.

(** Adult content twice, then a usable description. *)
Definition cv_third_fine : nat -> string -> json -> response :=
  fun n _ _ => if (n <? 2)%nat
               then Samples.described "a woman on a beach" true
               else Samples.described "a woman and two men" false.

(** One cycle against that vision API, and the world in which its third
    cycle starts. *)
Definition cycle : M (option Result) :=
  attempt Samples.word_filter Samples.wiki_good cv_third_fine Samples.key 3 JNull.

Definition third_cycle_start : world :=
  after_notice (snd (cycle (after_notice (snd (cycle Samples.start))))).

End MoreSamples.

(** * Properties *)

(** ** Inversion of monadic computations *)

Lemma bind_ret_inv {A B} (m : M A) (k : A -> M B) w b w' :
  bind m k w = (Ret b, w') ->
  exists a w1, m w = (Ret a, w1) /\ k a w1 = (Ret b, w').
Proof.
  unfold bind. destruct (m w) as [[a | e |] w1]; intros H; try discriminate.
  eauto.
Qed.

Lemma lift_ret_inv {A} (r : py A) w a w' :
  lift r w = (Ret a, w') -> r = Val a /\ w' = w.
Proof.
  destruct r; unfold lift, ret, raise; intros H; inversion H; auto.
Qed.

Lemma ret_inv {A} (a b : A) w w' : ret a w = (Ret b, w') -> a = b /\ w' = w.
Proof. unfold ret. intros H; inversion H; auto. Qed.

(** Splits a hypothesis [m w = (Ret _, _)] along the binds of [m]. *)
Ltac minv H :=
  lazymatch type of H with
  | bind _ _ _ = (Ret _, _) =>
      let a := fresh "v" in let w1 := fresh "w" in
      let H1 := fresh "H" in let H2 := fresh "H" in
      apply bind_ret_inv in H; destruct H as (a & w1 & H1 & H2);
      minv H1; minv H2
  | lift _ _ = (Ret _, _) =>
      let E := fresh "E" in let Ew := fresh "Ew" in
      apply lift_ret_inv in H; destruct H as [E Ew]; subst
  | ret _ _ = (Ret _, _) =>
      let E := fresh "E" in let Ew := fresh "Ew" in
      apply ret_inv in H; destruct H as [E Ew]; try discriminate E; subst
  | raise _ _ = (Ret _, _) => discriminate H
  | (if ?c then _ else _) _ = (Ret _, _) =>
      let C := fresh "C" in destruct c eqn:C; minv H
  | _ => idtac
  end.

(** ** Text *)

Section TextFacts.

Import Text.

Lemma is_space_lower c : is_space (lower_ascii c) = is_space c.
Proof.
  destruct c as [[] [] [] [] [] [] [] []]; reflexivity.
Qed.

Lemma is_upper_lower c : is_upper (lower_ascii c) = false.
Proof.
  destruct c as [[] [] [] [] [] [] [] []]; reflexivity.
Qed.

Lemma lower_ascii_idem c : lower_ascii (lower_ascii c) = lower_ascii c.
Proof.
  unfold lower_ascii at 1. now rewrite is_upper_lower.
Qed.

Lemma lower_idem s : lower (lower s) = lower s.
Proof.
  induction s as [|c s IH]; simpl; [reflexivity|].
  now rewrite lower_ascii_idem, IH.
Qed.

Lemma lower_app a b : lower (a ++ b) = lower a ++ lower b.
Proof.
  induction a as [|c a IH]; simpl; [reflexivity|]. now rewrite IH.
Qed.

Lemma is_empty_lower s : is_empty (lower s) = is_empty s.
Proof. destruct s; reflexivity. Qed.

Lemma split_from_lower s : forall word,
  split_from (lower word) (lower s) = map lower (split_from word s).
Proof.
  induction s as [|c s IH]; intros word; simpl.
  - rewrite is_empty_lower. destruct (is_empty word); reflexivity.
  - rewrite is_space_lower, is_empty_lower.
    destruct (is_space c).
    + destruct (is_empty word); simpl; rewrite <- IH; reflexivity.
    + rewrite <- IH, lower_app. reflexivity.
Qed.

(** Lower-casing commutes with splitting into tokens. *)
Lemma split_lower s : split (lower s) = map lower (split s).
Proof. exact (split_from_lower s EmptyString). Qed.

Lemma spaceless_app a b :
  spaceless (a ++ b) = spaceless a && spaceless b.
Proof.
  induction a as [|c a IH]; simpl; [reflexivity|].
  now rewrite IH, andb_assoc.
Qed.

Lemma spaceless_lower s : spaceless (lower s) = spaceless s.
Proof.
  induction s as [|c s IH]; simpl; [reflexivity|].
  now rewrite is_space_lower, IH.
Qed.

Lemma is_empty_app_char w c : is_empty (w ++ String c EmptyString) = false.
Proof. destruct w; reflexivity. Qed.

Lemma split_from_tokens s : forall word,
  spaceless word = true -> Forall token (split_from word s).
Proof.
  induction s as [|c s IH]; intros word Hw; simpl.
  - destruct (is_empty word) eqn:E; constructor; [split; assumption | constructor].
  - destruct (is_space c) eqn:Ec.
    + destruct (is_empty word) eqn:E.
      * apply IH. reflexivity.
      * constructor; [split; assumption | apply IH; reflexivity].
    + apply IH. rewrite spaceless_app, Hw. simpl. now rewrite Ec.
Qed.

Lemma split_tokens s : Forall token (split s).
Proof. apply split_from_tokens. reflexivity. Qed.

Lemma app_assoc_char (w : string) c t :
  (w ++ String c EmptyString) ++ t = w ++ String c t.
Proof.
  induction w as [|a w IH]; simpl; [reflexivity|]. now rewrite IH.
Qed.

Lemma app_empty_r (w : string) : w ++ EmptyString = w.
Proof. induction w as [|a w IH]; simpl; [reflexivity|]. now rewrite IH. Qed.

(** Reading a space-free text only extends the current token. *)
Lemma split_from_word t : forall word rest,
  spaceless t = true ->
  split_from word (t ++ rest) = split_from (word ++ t) rest.
Proof.
  induction t as [|c t IH]; intros word rest Ht; simpl.
  - now rewrite app_empty_r.
  - simpl in Ht. apply andb_true_iff in Ht as [Hc Ht].
    apply negb_true_iff in Hc. rewrite Hc.
    rewrite IH by assumption. now rewrite app_assoc_char.
Qed.

(** Splitting undoes joining tokens with one space. *)
Lemma split_join ws : Forall token ws -> split (join " " ws) = ws.
Proof.
  unfold split.
  induction ws as [|w ws IH]; intros H; [reflexivity|].
  inversion H as [|? ? [Hne Hsp] Hrest]; subst.
  destruct ws as [|w2 ws].
  - simpl. rewrite <- (app_empty_r w) at 1.
    rewrite split_from_word by assumption. simpl. now rewrite Hne.
  - change (join " " (w :: w2 :: ws)) with (w ++ " " ++ join " " (w2 :: ws)).
    rewrite split_from_word by assumption. simpl append at 1.
    change (" " ++ join " " (w2 :: ws))
      with (String " "%char (join " " (w2 :: ws))).
    simpl split_from at 1. rewrite Hne.
    f_equal. apply IH. assumption.
Qed.

Lemma lower_join ws : lower (join " " ws) = join " " (map lower ws).
Proof.
  induction ws as [|w ws IH]; [reflexivity|].
  destruct ws as [|w2 ws]; [reflexivity|].
  change (join " " (w :: w2 :: ws)) with (w ++ " " ++ join " " (w2 :: ws)).
  rewrite !lower_app, IH. reflexivity.
Qed.

Lemma no_upper_lower s : no_upper (lower s) = true.
Proof.
  induction s as [|c s IH]; simpl; [reflexivity|].
  now rewrite is_upper_lower, IH.
Qed.

End TextFacts.

Example split_drops_runs_of_spaces :
  Text.split "  a woman  and" = ["a"; "woman"; "and"].
Proof. reflexivity. Qed.

Example parse_int_accepts_padding : Text.parse_int " 0 " = Some 0.
Proof. reflexivity. Qed.

Example parse_int_rejects_words : Text.parse_int "zero" = None.
Proof. reflexivity. Qed.

(** [int] does not skip the separators 28 to 31, which [split] does. *)
Example parse_int_keeps_file_separator :
  Text.parse_int (String (ascii_of_nat 28) "5") = None /\
  Text.split (String (ascii_of_nat 28) "5") = ["5"].
Proof. split; reflexivity. Qed.

Example word_filter_finds_nazi :
  Samples.word_filter "Nazi propaganda poster" = true /\
  Samples.word_filter "Harbour at dusk" = false.
Proof. split; reflexivity. Qed.

(** ** The format pattern *)

Section Formats.
Import Text.

Lemma last_char_app a b :
  is_empty b = false -> last_char (a ++ b) = last_char b.
Proof.
  intros Hb. induction a as [|c a IH]; [reflexivity|].
  simpl. rewrite IH.
  destruct (a ++ b) eqn:E; [|reflexivity].
  destruct a; simpl in E; [subst b; discriminate | discriminate].
Qed.

Lemma match_here_inv s :
  match_here s = true ->
  exists ext, In ext format_spellings /\
              (lower s = ext \/ lower s = ext ++ newline).
Proof.
  unfold match_here, format_spellings, format_alternatives.
  cbn [existsb map].
  rewrite !orb_true_iff, !String.eqb_eq.
  intros H.
  repeat match goal with
         | H : _ \/ _ |- _ => destruct H as [H | H]
         end; try discriminate;
    lazymatch type of H with
    | lower s = "." ++ ?alt ++ newline =>
        exists ("." ++ alt); split; [simpl; auto 8 | right; exact H]
    | lower s = "." ++ ?alt =>
        exists ("." ++ alt); split; [simpl; auto 8 | left; exact H]
    end.
Qed.

Lemma search_inv s :
  supported_formats_search s = true ->
  exists stem ext, In ext format_spellings /\
    (lower s = stem ++ ext \/ lower s = stem ++ ext ++ newline).
Proof.
  induction s as [|c s IH]; cbn [supported_formats_search];
    rewrite orb_true_iff; intros [H | H].
  - apply match_here_inv in H as (ext & Hin & Hs). exists EmptyString, ext. auto.
  - discriminate.
  - apply match_here_inv in H as (ext & Hin & Hs). exists EmptyString, ext. auto.
  - destruct (IH H) as (stem & ext & Hin & Hs).
    exists (String (lower_ascii c) stem), ext. split; [assumption|].
    simpl. destruct Hs as [-> | ->]; auto.
Qed.

Lemma search_upper_jpg stem : supported_formats_search (stem ++ ".JPG") = true.
Proof.
  induction stem as [|c stem IH]; [reflexivity|].
  simpl append. simpl supported_formats_search. rewrite IH. apply orb_true_r.
Qed.

Lemma search_bmp stem : supported_formats_search (stem ++ ".bmp") = false.
Proof.
  destruct (supported_formats_search (stem ++ ".bmp")) eqn:E; [|reflexivity].
  apply search_inv in E as (st & ext & Hin & Hs).
  rewrite lower_app in Hs.
  assert (L : last_char (lower stem ++ lower ".bmp") = Some "p"%char)
    by (rewrite last_char_app; reflexivity).
  unfold format_spellings, format_alternatives in Hin. simpl in Hin.
  destruct Hs as [Hs | Hs]; rewrite Hs in L;
    repeat (destruct Hin as [<- | Hin]; [rewrite last_char_app in L by reflexivity; discriminate L|]);
    contradiction.
Qed.
End Formats.

(** ** The filters of [get_random_picture] *)

Section Accept.
Variable blacklisted : string -> bool.
Variable mediawiki : nat -> response.

Lemma word_filter_inv v w b w' :
  word_filter_blacklisted blacklisted v w = (Ret b, w') ->
  exists s, v = JStr s /\ blacklisted s = b /\ w' = w.
Proof.
  destruct v; simpl; intros H; try discriminate.
  apply ret_inv in H as [<- ->]. eauto.
Qed.

Lemma scan_blacklist_clean category bl : forall w w',
  scan_blacklist category bl w = (Ret false, w') ->
  w' = w /\
  (bl = [] \/
   exists title, Py.getitem category "title" = Val (JStr title) /\
                 Forall (fun b => Text.contains b (Text.lower title) = false) bl).
Proof.
  induction bl as [|b bl IH]; intros w w' H; cbn [scan_blacklist] in H.
  - apply ret_inv in H as [_ ->]. auto.
  - minv H.
    destruct v; try discriminate.
    match goal with E : Py.str_lower _ = Val _ |- _ => injection E as <- end.
    match goal with
    | H : scan_blacklist _ _ _ = _ |- _ =>
        destruct (IH _ _ H) as [-> [-> | (t & Ht & Hf)]]
    end.
    + split; [reflexivity|]. right. exists s. split; [assumption|].
      constructor; [assumption | constructor].
    + split; [reflexivity|]. right. exists s. split; [assumption|].
      match goal with E : Py.getitem _ _ = Val (JStr s) |- _ =>
        rewrite E in Ht end.
      injection Ht as <-.
      constructor; assumption.
Qed.

Lemma scan_categories_clean categories : forall w w',
  scan_categories categories w = (Ret false, w') ->
  w' = w /\ Forall clean_category categories.
Proof.
  induction categories as [|c cs IH]; intros w w' H;
    cbn [scan_categories] in H.
  - apply ret_inv in H as [_ ->]. auto.
  - minv H.
    match goal with
    | H : scan_blacklist _ _ _ = _ |- _ =>
        apply scan_blacklist_clean in H as [-> [Hnil | Hc]];
          [discriminate Hnil|]
    end.
    match goal with
    | H : scan_categories _ _ = _ |- _ => destruct (IH _ _ H) as [-> Hcs]
    end.
    split; [reflexivity|]. constructor; assumption.
Qed.

Lemma ne_str_false v s : Py.ne_str v s = false -> v = JStr s.
Proof.
  destruct v; simpl; try discriminate.
  intros H. apply negb_false_iff, String.eqb_eq in H. now subst.
Qed.

Lemma le_false v n :
  1 <= n -> Py.le v n = Val false -> exists z, v = JInt z /\ n < z.
Proof.
  unfold Py.le. intros Hn.
  destruct v as [|b|z| | |]; simpl; try discriminate; intros H;
    injection H as H; apply Z.leb_gt in H.
  - destruct b; lia.
  - eauto.
Qed.

Lemma response_json_inv r w j w' :
  response_json r w = (Ret j, w') -> decoded r = Some j /\ w' = w.
Proof.
  unfold response_json. destruct (decoded r); [|discriminate].
  intros H. apply ret_inv in H as [-> ->]. auto.
Qed.

Lemma requests_get_mediawiki_inv w r w' :
  requests_get_mediawiki mediawiki w = (Ret r, w') ->
  r = mediawiki (wiki_i w).
Proof. unfold requests_get_mediawiki. intros H. now inversion H. Qed.

Ltac use_facts :=
  repeat match goal with
         | E : ?x = Val _ |- context [?x] => rewrite E; cbn [Py.and_then]
         end.

Lemma get_random_picture_accepts w pic w' :
  get_random_picture blacklisted mediawiki w = (Ret pic, w') ->
  pic <> JNull ->
  exists body,
    decoded (mediawiki (wiki_i w)) = Some body /\
    passed_filters blacklisted body pic.
Proof.
  unfold get_random_picture. intros H N.
  minv H.
  all: try (exfalso; apply N; reflexivity).
  repeat match goal with
         | H : word_filter_blacklisted _ _ _ = _ |- _ =>
             apply word_filter_inv in H as (? & -> & ? & ->)
         | H : scan_categories _ _ = _ |- _ =>
             apply scan_categories_clean in H as [-> ?]
         | H : Py.ne_str _ _ = false |- _ => apply ne_str_false in H; subst
         | H : Py.le _ 50 = Val false |- _ =>
             apply le_false in H as (? & -> & ?); [|lia]
         | H : requests_get_mediawiki _ _ = _ |- _ =>
             apply requests_get_mediawiki_inv in H; subst
         | H : response_json _ _ = _ |- _ =>
             apply response_json_inv in H as [? ->]
         | H : match ?u with JStr _ => _ | _ => _ end _ = (Ret _, _) |- _ =>
             destruct u; try discriminate H; apply ret_inv in H as [<- ->]
         | H : negb _ = false |- _ => apply negb_false_iff in H
         end.
  eexists. split; [eassumption|].
  unfold passed_filters, candidate, first_page.
  do 8 eexists.
  cbn [Py.path Py.and_then].
  repeat split; try (use_facts; first [reflexivity | eassumption]).
Qed.
End Accept.

(** ** Gender neutralization *)

Section Neutralize.

Import Text.

(** The call returns the joined tokens, whatever it prints. *)
Lemma gender_neutralize_returns phrase w :
  exists w', gender_neutralize (JStr phrase) w
             = (Ret (join " " (neutral_tokens phrase)), w').
Proof.
  unfold gender_neutralize, bind, lift, neutral_tokens. simpl.
  destruct (negb _); simpl; eexists; reflexivity.
Qed.

Lemma replace_word_cases word :
  replace_word gendered_words word = word \/
  replace_word gendered_words word = "person" \/
  replace_word gendered_words word = "people".
Proof.
  simpl.
  repeat match goal with
         | |- context [String.eqb ?a ?b] => destruct (String.eqb a b)
         end; auto.
Qed.

Lemma replace_word_idem word :
  replace_word gendered_words (replace_word gendered_words word)
  = replace_word gendered_words word.
Proof.
  destruct (replace_word_cases word) as [E | [E | E]]; rewrite E;
    [assumption | reflexivity | reflexivity].
Qed.

Lemma replace_word_token word :
  token word -> token (replace_word gendered_words word).
Proof.
  intros H.
  destruct (replace_word_cases word) as [E | [E | E]]; rewrite E;
    [assumption | split; reflexivity | split; reflexivity].
Qed.

Lemma replace_word_lowered word :
  lower word = word ->
  lower (replace_word gendered_words word) = replace_word gendered_words word.
Proof.
  intros H.
  destruct (replace_word_cases word) as [E | [E | E]]; rewrite E;
    [assumption | reflexivity | reflexivity].
Qed.

Lemma neutral_tokens_token phrase : Forall token (neutral_tokens phrase).
Proof.
  unfold neutral_tokens. apply Forall_map.
  eapply Forall_impl; [|apply split_tokens].
  intros a Ha. now apply replace_word_token.
Qed.

Lemma neutral_tokens_lowered phrase :
  map lower (neutral_tokens phrase) = neutral_tokens phrase.
Proof.
  unfold neutral_tokens. rewrite split_lower, !map_map.
  apply map_ext. intros a. apply replace_word_lowered, lower_idem.
Qed.

(** The tokens of the output, in terms of the tokens of the input. *)
Lemma neutral_tokens_of_input phrase :
  neutral_tokens phrase
  = map (fun tok => replace_word gendered_words (lower tok)) (split phrase).
Proof.
  unfold neutral_tokens. now rewrite split_lower, map_map.
Qed.

Lemma neutral_tokens_fixed phrase :
  neutral_tokens (join " " (neutral_tokens phrase)) = neutral_tokens phrase.
Proof.
  unfold neutral_tokens at 1.
  rewrite lower_join, neutral_tokens_lowered.
  rewrite split_join by apply neutral_tokens_token.
  unfold neutral_tokens. rewrite map_map.
  apply map_ext. intros a. apply replace_word_idem.
Qed.

End Neutralize.

Lemma same_letter_lower c : same_letter (Text.lower_ascii c) c = true.
Proof.
  destruct c as [[] [] [] [] [] [] [] []]; reflexivity.
Qed.

Lemma same_letter_small c d :
  ((97 <=? nat_of_ascii d) && (nat_of_ascii d <=? 122))%nat = true ->
  same_letter c d = Ascii.eqb (Text.lower_ascii c) d.
Proof.
  destruct d as [[] [] [] [] [] [] [] []]; intros H; try discriminate H;
    clear H; destruct c as [[] [] [] [] [] [] [] []]; reflexivity.
Qed.

Lemma same_word_lower tok : same_word (Text.lower tok) tok = true.
Proof.
  induction tok as [|c tok IH]; [reflexivity|].
  cbn [Text.lower same_word]. now rewrite same_letter_lower, IH.
Qed.

(** Against a word of small letters, comparing without regard to case is
    comparing the lower-cased token. *)
Lemma same_word_small word : forall tok,
  small_letters word = true ->
  same_word tok word = String.eqb (Text.lower tok) word.
Proof.
  induction word as [|d word IH]; intros tok H.
  - destruct tok; reflexivity.
  - cbn [small_letters] in H. apply andb_true_iff in H as [Hd Hw].
    destruct tok as [|c tok]; [reflexivity|].
    cbn [same_word Text.lower String.eqb].
    rewrite (same_letter_small _ _ Hd), (IH _ Hw).
    destruct (Ascii.eqb (Text.lower_ascii c) d); reflexivity.
Qed.

(** C7: gender neutralization works on the tokens of the white-space split:
    a token that is "woman", "women", "man" or "men" in any letter case
    gives "person", "people", "person" and "people", every other token is
    kept up to the case of its letters, and the words, one per token and
    free of white space, are joined with single spaces.
    neutralize("a woman and two men") and neutralize("A WOMAN and two Men")
    are "a person and two people"; "human" and "mankind" are not touched. *)
Theorem gender_neutralize_replaces_tokens :
  forall (phrase : string) (w : world),
    (exists outs w',
        gender_neutralize (JStr phrase) w = (Ret (Text.join " " outs), w') /\
        Forall Text.token outs /\
        Forall2 (fun tok out =>
                   if same_word tok "woman" then out = "person"
                   else if same_word tok "women" then out = "people"
                   else if same_word tok "man" then out = "person"
                   else if same_word tok "men" then out = "people"
                   else same_word out tok = true)
                (Text.split phrase) outs) /\
    (exists w', gender_neutralize (JStr "a woman and two men") w
                = (Ret "a person and two people", w')) /\
    (exists w', gender_neutralize (JStr "A WOMAN and two Men") w
                = (Ret "a person and two people", w')) /\
    (exists w', gender_neutralize (JStr "a human and mankind") w
                = (Ret "a human and mankind", w')).
Proof.
  intros phrase w. split; [|split; [|split]].
  - destruct (gender_neutralize_returns phrase w) as [w' E].
    exists (neutral_tokens phrase), w'. split; [exact E|].
    split; [apply neutral_tokens_token|].
    rewrite neutral_tokens_of_input.
    induction (Text.split phrase) as [|tok toks IH]; cbn [map]; constructor;
      [|exact IH].
    rewrite !same_word_small by reflexivity.
    cbn [replace_word gendered_words].
    destruct (String.eqb (Text.lower tok) "woman") eqn:E1; [reflexivity|].
    destruct (String.eqb (Text.lower tok) "women") eqn:E2.
    { apply String.eqb_eq in E2. rewrite E2. reflexivity. }
    destruct (String.eqb (Text.lower tok) "man") eqn:E3; [reflexivity|].
    destruct (String.eqb (Text.lower tok) "men") eqn:E4; [reflexivity|].
    apply same_word_lower.
  - destruct (gender_neutralize_returns "a woman and two men" w) as [w' E].
    exists w'. exact E.
  - destruct (gender_neutralize_returns "A WOMAN and two Men" w) as [w' E].
    exists w'. exact E.
  - destruct (gender_neutralize_returns "a human and mankind" w) as [w' E].
    exists w'. exact E.
Qed.

(** C8: gender neutralization is idempotent: neutralizing the output of a
    call returns that output again. *)
Theorem gender_neutralize_idempotent :
  forall (x : string) (w : world),
  exists y w1 w2,
    gender_neutralize (JStr x) w = (Ret y, w1) /\
    gender_neutralize (JStr y) w1 = (Ret y, w2).
Proof.
  intros x w.
  destruct (gender_neutralize_returns x w) as [w1 E1].
  destruct (gender_neutralize_returns (Text.join " " (neutral_tokens x)) w1)
    as [w2 E2].
  rewrite neutral_tokens_fixed in E2.
  eauto.
Qed.

(** C10: the output of gender_neutralize is entirely lower-cased: it has no
    upper-case letter, each of its words is the lower-cased input token (or
    the replacement of that lower-cased token), also for the words that are
    not substituted; neutralize("A Dog") is "a dog". *)
Theorem gender_neutralize_lowercases :
  forall (phrase : string) (w : world),
    (exists out w',
        gender_neutralize (JStr phrase) w = (Ret out, w') /\
        Text.lower out = out /\
        Text.no_upper out = true /\
        Forall2 (fun tok word =>
                   word = replace_word gendered_words (Text.lower tok) /\
                   (word = Text.lower tok \/ word = "person" \/ word = "people"))
                (Text.split phrase) (Text.split out)) /\
    (exists w', gender_neutralize (JStr "A Dog") w = (Ret "a dog", w')).
Proof.
  intros phrase w. split.
  - destruct (gender_neutralize_returns phrase w) as [w' E].
    exists (Text.join " " (neutral_tokens phrase)), w'.
    assert (L : Text.lower (Text.join " " (neutral_tokens phrase))
                = Text.join " " (neutral_tokens phrase))
      by now rewrite lower_join, neutral_tokens_lowered.
    repeat split.
    + exact E.
    + exact L.
    + rewrite <- L. apply no_upper_lower.
    + rewrite split_join by apply neutral_tokens_token.
      rewrite neutral_tokens_of_input.
      induction (Text.split phrase) as [|tok toks IH]; simpl; constructor.
      * split; [reflexivity | apply replace_word_cases].
      * exact IH.
  - destruct (gender_neutralize_returns "A Dog" w) as [w' E].
    exists w'. exact E.
Qed.

(** ** Computations that end no cycle *)

Section Quiet.

Lemma quiet_ret {A} (a : A) : quiet (ret a).
Proof. intros w b w' H. apply ret_inv in H as [_ ->]. reflexivity. Qed.

Lemma quiet_raise {A} (e : exn) : quiet (@raise A e).
Proof. intros w b w' H. discriminate H. Qed.

Lemma quiet_out_of_fuel {A} : quiet (@out_of_fuel A).
Proof. intros w b w' H. discriminate H. Qed.

Lemma quiet_lift {A} (r : py A) : quiet (lift r).
Proof. intros w b w' H. apply lift_ret_inv in H as [_ ->]. reflexivity. Qed.

Lemma quiet_bind {A B} (m : M A) (k : A -> M B) :
  quiet m -> (forall a, quiet (k a)) -> quiet (bind m k).
Proof.
  intros Hm Hk w b w' H.
  apply bind_ret_inv in H as (a & w1 & H1 & H2).
  rewrite (Hk _ _ _ _ H2). exact (Hm _ _ _ H1).
Qed.

(** The continuation only runs on the value the expression evaluates to. *)
Lemma quiet_bind_lift {A B} (r : py A) (k : A -> M B) :
  (forall a, r = Val a -> quiet (k a)) -> quiet (bind (lift r) k).
Proof.
  intros Hk w b w' H.
  apply bind_ret_inv in H as (a & w1 & H1 & H2).
  apply lift_ret_inv in H1 as [E ->].
  exact (Hk _ E _ _ _ H2).
Qed.

Lemma quiet_emit e : is_retry_notice e = false -> quiet (emit e).
Proof.
  intros He w b w' H. unfold emit in H. inversion H; subst.
  unfold cycles. cbn [trace filter]. now rewrite He.
Qed.

Lemma quiet_sleep secs : quiet (sleep secs).
Proof. apply quiet_emit. reflexivity. Qed.

Lemma quiet_print text args :
  is_retry_notice (EvPrint text args) = false -> quiet (print text args).
Proof. apply quiet_emit. Qed.

Lemma quiet_response_json r : quiet (response_json r).
Proof.
  unfold response_json. destruct (decoded r); [apply quiet_ret | apply quiet_raise].
Qed.

Lemma str_add_inv s v msg : Py.str_add s v = Val msg -> exists t, v = JStr t /\ msg = s ++ t.
Proof. destruct v; simpl; intros H; try discriminate. injection H as <-. eauto. Qed.

Ltac quiet_tac :=
  repeat first
    [ apply quiet_ret
    | apply quiet_raise
    | apply quiet_out_of_fuel
    | apply quiet_sleep
    | apply quiet_response_json
    | apply quiet_lift
    | assumption
    | solve [auto]
    | match goal with
      | H : Py.str_add _ _ = Val _ |- _ =>
          apply str_add_inv in H as (? & -> & ->)
      end
    | apply quiet_print; reflexivity
    | apply quiet_bind_lift; intros ? ?
    | apply quiet_bind; [|intros ?]
    | match goal with
      | |- quiet (if ?c then _ else _) => destruct c
      | |- quiet (match ?x with _ => _ end) => destruct x
      end ].

Variable blacklisted : string -> bool.
Variable mediawiki : nat -> response.
Variable cvapi : nat -> string -> json -> response.
Variable apikey : string.

Lemma quiet_gender_neutralize phrase : quiet (gender_neutralize phrase).
Proof. unfold gender_neutralize. quiet_tac. Qed.

Lemma quiet_word_filter v : quiet (word_filter_blacklisted blacklisted v).
Proof. unfold word_filter_blacklisted. quiet_tac. Qed.

Lemma quiet_requests_get_mediawiki : quiet (requests_get_mediawiki mediawiki).
Proof. intros w a w' H. unfold requests_get_mediawiki in H. now inversion H. Qed.

Lemma quiet_requests_post_cvapi u : quiet (requests_post_cvapi cvapi apikey u).
Proof. intros w a w' H. unfold requests_post_cvapi in H. now inversion H. Qed.

Lemma quiet_scan_blacklist category bl : quiet (scan_blacklist category bl).
Proof. induction bl as [|b bl IH]; cbn [scan_blacklist]; quiet_tac. Qed.

Lemma quiet_scan_categories cats : quiet (scan_categories cats).
Proof.
  induction cats as [|c cs IH]; cbn [scan_categories]; [quiet_tac|].
  apply quiet_bind; [apply quiet_scan_blacklist|]. intros []; quiet_tac.
Qed.

Lemma quiet_get_random_picture : quiet (get_random_picture blacklisted mediawiki).
Proof.
  pose proof quiet_requests_get_mediawiki.
  pose proof quiet_word_filter.
  pose proof quiet_scan_categories.
  unfold get_random_picture. quiet_tac.
Qed.

Lemma quiet_read_body r result : quiet (read_body r result).
Proof. unfold read_body. quiet_tac. Qed.

Lemma quiet_describe_loop fuel u : forall retries result,
  quiet (describe_loop cvapi apikey fuel u retries result).
Proof.
  pose proof quiet_requests_post_cvapi.
  pose proof quiet_read_body.
  induction fuel as [|fuel IH]; intros retries result; cbn [describe_loop];
    quiet_tac.
Qed.

Lemma quiet_fetch_loop fuel : forall pic,
  quiet (fetch_loop blacklisted mediawiki fuel pic).
Proof.
  pose proof quiet_get_random_picture.
  induction fuel as [|fuel IH]; intros pic; cbn [fetch_loop]; quiet_tac.
Qed.

Lemma quiet_judge pic u result : quiet (judge blacklisted pic u result).
Proof.
  pose proof quiet_gender_neutralize.
  unfold judge. quiet_tac.
Qed.

Lemma quiet_attempt fuel pic :
  quiet (attempt blacklisted mediawiki cvapi apikey fuel pic).
Proof.
  pose proof quiet_fetch_loop. pose proof quiet_describe_loop.
  pose proof quiet_judge.
  unfold attempt, describe_picture. quiet_tac.
Qed.

End Quiet.

(** ** The rate-limited rounds of [describe_picture] *)

Section RateLimit.
Variable cvapi : nat -> string -> json -> response.
Variable apikey : string.
Variable u : json.

Lemma describe_loop_rate_limited : forall k fuel retries w,
  retries = 15 - Z.of_nat k ->
  (k <= 15)%nat ->
  (k <= fuel)%nat ->
  (forall j, (j < k)%nat ->
     status_code (cvapi (cv_i w + j) apikey u) = 429 /\
     decoded (cvapi (cv_i w + j) apikey u) <> None) ->
  exists w',
    describe_loop cvapi apikey fuel u retries (PJson JNull) w
    = (Ret (PJson JNull), w') /\
    cv_i w' = (cv_i w + k)%nat /\
    wiki_i w' = wiki_i w /\ img_i w' = img_i w /\
    trace w' = (flat_map (rate_limited_round cvapi apikey u)
                         (rev (seq (cv_i w) k)) ++ trace w)%list.
Proof.
  induction k as [|k IH]; intros fuel retries w Hr Hk Hf Hresp.
  - exists w. replace retries with 15 by lia.
    destruct fuel; simpl; rewrite Nat.add_0_r; auto.
  - destruct fuel as [|fuel]; [lia|].
    destruct (Hresp 0%nat ltac:(lia)) as [Hs Hd].
    rewrite Nat.add_0_r in Hs, Hd.
    destruct (decoded (cvapi (cv_i w) apikey u)) as [body|] eqn:Eb; [|congruence].
    assert (Hlt : (retries <? 15) = true) by (apply Z.ltb_lt; lia).
    cbn [describe_loop]. rewrite Hlt. cbn [pyval_truthy Py.truthy negb andb].
    unfold bind, requests_post_cvapi, response_json, print, sleep, emit, ret.
    rewrite Hs, Eb. cbn [Z.eqb Pos.eqb wiki_i cv_i img_i trace].
    match goal with
    | |- context [describe_loop _ _ _ _ _ _ ?w1] =>
        destruct (IH fuel (retries + 1) w1) as (w' & E & Hc & Hw & Hi & Ht)
    end; try lia.
    + cbn [cv_i]. intros j Hj.
      replace (S (cv_i w) + j)%nat with (cv_i w + S j)%nat by lia.
      apply Hresp. lia.
    + exists w'. split; [exact E|].
      cbn [cv_i wiki_i img_i trace] in Hc, Hw, Hi, Ht.
      repeat split; try assumption; try lia.
      rewrite Ht. cbn [seq rev]. rewrite flat_map_app. cbn [flat_map].
      rewrite <- app_assoc. f_equal.
      unfold rate_limited_round, message_of. rewrite Eb. reflexivity.
Qed.
End RateLimit.

(** ** The retry loop of the orchestrator *)

Section Orchestrator.
Variable blacklisted : string -> bool.
Variable mediawiki : nat -> response.
Variable cvapi : nat -> string -> json -> response.
Variable apikey : string.


End Orchestrator.

Section Provenance.
Variable blacklisted : string -> bool.
Variable mediawiki : nat -> response.
Variable cvapi : nat -> string -> json -> response.
Variable apikey : string.

Lemma is_none_true v : Py.is_none v = true -> v = JNull.
Proof. destruct v; simpl; intros H; try discriminate; reflexivity. Qed.

Lemma is_none_false v : Py.is_none v = false -> v <> JNull.
Proof. intros H ->. discriminate H. Qed.

Lemma fetch_loop_inv fuel : forall pic0 w pic w',
  fetch_loop blacklisted mediawiki fuel pic0 w = (Ret pic, w') ->
  pic <> JNull /\
  ((pic0 = pic /\ w' = w) \/
   exists w0, get_random_picture blacklisted mediawiki w0 = (Ret pic, w')).
Proof.
  induction fuel as [|fuel IH]; intros pic0 w pic w' H; cbn [fetch_loop] in H.
  - destruct (Py.is_none pic0) eqn:E; [discriminate H|].
    apply ret_inv in H as [<- ->]. split; [now apply is_none_false | auto].
  - destruct (Py.is_none pic0) eqn:E.
    + apply bind_ret_inv in H as (pic1 & w1 & Hg & H).
      apply bind_ret_inv in H as ([] & w2 & Hs & H).
      destruct (IH _ _ _ _ H) as [N [[<- ->] | Hex]].
      * split; [exact N|]. right.
        destruct (Py.is_none pic1) eqn:E1.
        -- apply is_none_true in E1. contradiction.
        -- apply ret_inv in Hs as [_ ->]. eauto.
      * auto.
    + apply ret_inv in H as [<- ->]. split; [now apply is_none_false | auto].
Qed.

Lemma gender_neutralize_inv phrase w out w' :
  gender_neutralize phrase w = (Ret out, w') -> exists text, phrase = JStr text.
Proof.
  unfold gender_neutralize. intros H.
  apply bind_ret_inv in H as (l & w1 & H & _).
  apply lift_ret_inv in H as [H _].
  destruct phrase; try discriminate H. eauto.
Qed.

Lemma judge_inv pic u result w r w' :
  judge blacklisted pic u result w = (Ret (Some r), w') ->
  exists description flag captions first text,
    pyval_getitem result "description" = Val description /\
    Py.and_then (pyval_getitem result "adult")
                (fun adult => Py.getitem adult "isAdultContent") = Val flag /\
    Py.truthy flag = false /\
    Py.getitem description "captions" = Val captions /\
    Py.getitem_int captions 0 = Val first /\
    Py.getitem first "text" = Val (JStr text) /\
    gender_neutralize (JStr text) w = (Ret (caption r), w') /\
    blacklisted (caption r) = false /\
    Py.getitem description "tags" = Val (tags r) /\
    url r = u /\
    Py.getitem pic "descriptionshorturl" = Val (source_url r).
Proof.
  unfold judge. intros H. minv H.
  repeat match goal with
         | H : negb _ = true |- _ => apply negb_true_iff in H
         | H : Some _ = Some _ |- _ => injection H as <-
         end.
  match goal with
  | H : gender_neutralize ?p _ = _ |- _ =>
      destruct (gender_neutralize_inv _ _ _ _ H) as [text ->]
  end.
  do 5 eexists. cbn [caption tags url source_url].
  repeat split;
    try (repeat match goal with
                | E : ?x = Val _ |- context [?x] => rewrite E; cbn [Py.and_then]
                end; first [reflexivity | eassumption]).
Qed.

Lemma attempt_inv fuel w r w' :
  attempt blacklisted mediawiki cvapi apikey fuel JNull w = (Ret (Some r), w') ->
  exists w0 w1 w2 pic result,
    get_random_picture blacklisted mediawiki w0 = (Ret pic, w1) /\
    pic <> JNull /\
    (Py.getitem pic "url" = Val (url r) \/
     Py.getitem pic "thumburl" = Val (url r)) /\
    describe_picture cvapi apikey fuel (url r) w1 = (Ret result, w2) /\
    judge blacklisted pic (url r) result w2 = (Ret (Some r), w').
Proof.
  unfold attempt. intros H.
  apply bind_ret_inv in H as (pic & w1 & Hf & H).
  apply fetch_loop_inv in Hf as [N [[<- _] | [w0 Hg]]]; [contradiction|].
  minv H.
  - match goal with
    | H : judge _ _ ?u _ _ = _ |- _ =>
        pose proof (judge_inv _ _ _ _ _ _ H) as J;
        destruct J as (? & ? & ? & ? & ? & J); decompose [and] J; clear J
    end.
    subst. eauto 12.
  - match goal with
    | H : judge _ _ ?u _ _ = _ |- _ =>
        pose proof (judge_inv _ _ _ _ _ _ H) as J;
        destruct J as (? & ? & ? & ? & ? & J); decompose [and] J; clear J
    end.
    subst. eauto 12.
Qed.

Lemma retry_loop_inv fuel max_retries : forall n retries w r w',
  retry_loop blacklisted mediawiki cvapi apikey fuel n max_retries retries JNull w
  = (Ret r, w') ->
  exists w0,
    attempt blacklisted mediawiki cvapi apikey fuel JNull w0 = (Ret (Some r), w').
Proof.
  induction n as [|n IH]; intros retries w r w' H; cbn [retry_loop] in H.
  - destruct (retries <=? max_retries); discriminate H.
  - destruct (retries <=? max_retries); [|discriminate H].
    apply bind_ret_inv in H as ([r0|] & w1 & Ha & H).
    + apply ret_inv in H as [-> ->]. eauto.
    + minv H.
      match goal with
      | H : retry_loop _ _ _ _ _ _ _ _ _ _ = _ |- _ => exact (IH _ _ _ _ H)
      end.
Qed.

End Provenance.

(** ** The image source *)

(** C9, on the code: the format filter, written to accept the urls that end
    in .png, .jpg, .jpeg or .gif in any letter case, accepts more.  Its [$]
    also matches before a final line feed, and under [re.I] its [i] also
    matches U+0131: a candidate whose url is ...harbour.png followed by a line
    feed is accepted, and so is one whose url ends in .g, dotless i, f;
    neither url ends in one of the four extensions.  As the claim says, a url
    ending in .JPG passes the pattern and one ending in .bmp does not. *)
Theorem format_filter_accepts_other_endings :
  get_random_picture Samples.word_filter
    (fun _ => Samples.reply (Samples.page [Samples.harbours] Samples.newline_info))
    Samples.start
  = (Ret Samples.newline_info,
     {| wiki_i := 1; cv_i := 0; img_i := 0; trace := [EvGet MEDIAWIKI_API] |}) /\
  Py.getitem Samples.newline_info "url" = Val (JStr Samples.newline_url) /\
  forallb (fun ext => negb (Text.endswith ext (Text.lower Samples.newline_url)))
          format_suffixes = true /\
  get_random_picture Samples.word_filter
    (fun _ => Samples.reply (Samples.page [Samples.harbours] Samples.dotless_info))
    Samples.start
  = (Ret Samples.dotless_info,
     {| wiki_i := 1; cv_i := 0; img_i := 0; trace := [EvGet MEDIAWIKI_API] |}) /\
  Py.getitem Samples.dotless_info "url" = Val (JStr Samples.dotless_url) /\
  forallb (fun ext => negb (Text.endswith ext (Text.lower Samples.dotless_url)))
          format_suffixes = true /\
  (forall stem, supported_formats_search (stem ++ ".JPG") = true) /\
  (forall stem, supported_formats_search (stem ++ ".bmp") = false).
Proof.
  repeat split; try reflexivity.
  - apply search_upper_jpg.
  - apply search_bmp.
Qed.

(** ** The orchestrator *)

(** C1: a Result returned by get_picture_and_description is built from a
    picture that get_random_picture accepted, so that it passed all seven
    filters, from a description whose adult-content flag is false, and from
    the first caption of that description after gender neutralization, which
    the word filter does not blacklist. *)
Theorem result_is_built_from_vetted_parts :
  forall (blacklisted : string -> bool) (mediawiki : nat -> response)
         (cvapi : nat -> string -> json -> response) (apikey : string)
         (fuel : nat) (max_retries : Z) (w : world) (r : Result) (w' : world),
    get_picture_and_description blacklisted mediawiki cvapi apikey
                                fuel max_retries w = (Ret r, w') ->
    exists w0 w1 w2 body pic result description flag captions first text,
      get_random_picture blacklisted mediawiki w0 = (Ret pic, w1) /\
      pic <> JNull /\
      decoded (mediawiki (wiki_i w0)) = Some body /\
      passed_filters blacklisted body pic /\
      (Py.getitem pic "url" = Val (url r) \/
       Py.getitem pic "thumburl" = Val (url r)) /\
      Py.getitem pic "descriptionshorturl" = Val (source_url r) /\
      describe_picture cvapi apikey fuel (url r) w1 = (Ret result, w2) /\
      pyval_getitem result "description" = Val description /\
      Py.and_then (pyval_getitem result "adult")
                  (fun adult => Py.getitem adult "isAdultContent") = Val flag /\
      Py.truthy flag = false /\
      Py.getitem description "captions" = Val captions /\
      Py.getitem_int captions 0 = Val first /\
      Py.getitem first "text" = Val (JStr text) /\
      Py.getitem description "tags" = Val (tags r) /\
      gender_neutralize (JStr text) w2 = (Ret (caption r), w') /\
      blacklisted (caption r) = false.
Proof.
  intros blacklisted mediawiki cvapi apikey fuel max_retries w r w' H.
  unfold get_picture_and_description in H.
  apply retry_loop_inv in H as [wa Ha].
  apply attempt_inv in Ha as (w0 & w1 & w2 & pic & result & Hg & N & Hu & Hd & Hj).
  destruct (get_random_picture_accepts _ _ _ _ _ Hg N) as (body & Hb & P).
  apply judge_inv in Hj
    as (description & flag & captions & first & text & J).
  decompose [and] J. clear J.
  exists w0, w1, w2, body, pic, result, description, flag, captions, first, text.
  repeat (split; [assumption|]). assumption.
Qed.

(** The theorem at a run that succeeds at once: the sample page and the
    description "a woman and two men" give the caption
    "a person and two people". *)
Lemma result_is_built_from_vetted_parts_witness :
  exists r w',
    get_picture_and_description Samples.word_filter Samples.wiki_good
      Samples.cv_fine Samples.key 3 20 Samples.start = (Ret r, w') /\
    caption r = "a person and two people" /\
    exists w0 w1 w2 body pic result description flag captions first text,
      get_random_picture Samples.word_filter Samples.wiki_good w0 = (Ret pic, w1) /\
      pic <> JNull /\
      decoded (Samples.wiki_good (wiki_i w0)) = Some body /\
      passed_filters Samples.word_filter body pic /\
      (Py.getitem pic "url" = Val (url r) \/
       Py.getitem pic "thumburl" = Val (url r)) /\
      Py.getitem pic "descriptionshorturl" = Val (source_url r) /\
      describe_picture Samples.cv_fine Samples.key 3 (url r) w1 = (Ret result, w2) /\
      pyval_getitem result "description" = Val description /\
      Py.and_then (pyval_getitem result "adult")
                  (fun adult => Py.getitem adult "isAdultContent") = Val flag /\
      Py.truthy flag = false /\
      Py.getitem description "captions" = Val captions /\
      Py.getitem_int captions 0 = Val first /\
      Py.getitem first "text" = Val (JStr text) /\
      Py.getitem description "tags" = Val (tags r) /\
      gender_neutralize (JStr text) w2 = (Ret (caption r), w') /\
      Samples.word_filter (caption r) = false.
Proof.
  eexists. eexists. split; [vm_compute; reflexivity|].
  split; [reflexivity|].
  eapply result_is_built_from_vetted_parts
    with (max_retries := 20) (w := Samples.start).
  vm_compute. reflexivity.
Defined.



(** ** The description client *)

(** C5, as amended: when the vision endpoint answers each of the first
    sixteen requests it could receive with status 429 and a body that decodes
    as JSON, describe_picture sends exactly fifteen requests, each followed by
    the printed message and a sleep of 2, and returns None: a sixteenth
    request is not sent. *)
Theorem describe_picture_stops_after_15_rate_limits :
  forall (cvapi : nat -> string -> json -> response) (apikey : string)
         (fuel : nat) (u : json) (w : world),
    (15 <= fuel)%nat ->
    (forall j, (j < 16)%nat ->
       status_code (cvapi (cv_i w + j)%nat apikey u) = 429 /\
       decoded (cvapi (cv_i w + j)%nat apikey u) <> None) ->
    exists w',
      describe_picture cvapi apikey fuel u w = (Ret (PJson JNull), w') /\
      cv_i w' = (cv_i w + 15)%nat /\
      trace w' = (flat_map (rate_limited_round cvapi apikey u)
                           (rev (seq (cv_i w) 15)) ++ trace w)%list /\
      List.length (filter (fun e => match e with EvPost _ _ => true | _ => false end)
                          (flat_map (rate_limited_round cvapi apikey u)
                                    (rev (seq (cv_i w) 15)))) = 15%nat.
Proof.
  intros cvapi apikey fuel u w Hfuel Hresp.
  unfold describe_picture.
  destruct (describe_loop_rate_limited cvapi apikey u 15 fuel 0 w)
    as (w' & E & Hc & _ & _ & Ht); try lia.
  - intros j Hj. apply Hresp. lia.
  - exists w'. repeat split; assumption.
Qed.

(** The theorem with a server that always answers 429. *)
Lemma describe_picture_stops_after_15_rate_limits_witness :
  exists w',
    describe_picture Samples.cv_rate_limited Samples.key 40
                     Samples.harbour_url Samples.start
    = (Ret (PJson JNull), w') /\
    cv_i w' = (cv_i Samples.start + 15)%nat /\
    trace w' = (flat_map (rate_limited_round Samples.cv_rate_limited Samples.key
                            Samples.harbour_url)
                         (rev (seq (cv_i Samples.start) 15))
                ++ trace Samples.start)%list /\
    List.length (filter (fun e => match e with EvPost _ _ => true | _ => false end)
                   (flat_map (rate_limited_round Samples.cv_rate_limited Samples.key
                                Samples.harbour_url)
                             (rev (seq (cv_i Samples.start) 15)))) = 15%nat.
Proof.
  apply (describe_picture_stops_after_15_rate_limits
           Samples.cv_rate_limited Samples.key 40%nat
           Samples.harbour_url Samples.start).
  - vm_compute. lia.
  - intros j Hj. split; [reflexivity | discriminate].
Defined.

(** C5, the claim as stated fails: a 429 reply whose body is not JSON makes
    the call raise ValueError from [response.json()] in the log line, after
    one request and without a sleep, instead of returning None after
    fifteen. *)
Lemma rate_limit_without_json_body_raises :
  describe_picture Samples.cv_rate_limited_plain Samples.key 40
                   Samples.harbour_url Samples.start
  = (Raise ValueError,
     {| wiki_i := 0; cv_i := 1; img_i := 0;
        trace := [EvPost CVAPI (JDict [("url", Samples.harbour_url)])] |}).
Proof. reflexivity. Qed.

Lemma repeat_shift {A} (x : A) n l :
  (repeat x n ++ x :: l = x :: repeat x n ++ l)%list.
Proof. induction n as [|n IH]; simpl; [reflexivity|]. now rewrite IH. Qed.

(** With a server whose every reply is an empty 200, the loop of
    [describe_picture] uses up any fuel: it sends one request per step and
    never sleeps. *)
Lemma describe_loop_spins_on_empty_bodies u : forall fuel w,
  exists w',
    describe_loop Samples.cv_always_empty Samples.key fuel u 0 (PJson JNull) w
    = (OutOfFuel, w') /\
    cv_i w' = (cv_i w + fuel)%nat /\
    trace w' = (repeat (EvPost CVAPI (JDict [("url", u)])) fuel ++ trace w)%list.
Proof.
  induction fuel as [|fuel IH]; intros w.
  - exists w. repeat split. simpl. lia.
  - cbn [describe_loop]. cbn [Z.ltb Z.compare pyval_truthy Py.truthy negb andb].
    unfold bind at 1. unfold requests_post_cvapi at 1.
    cbn [Samples.cv_always_empty Samples.empty_ok status_code Z.eqb Pos.eqb orb].
    unfold bind at 1.
    change (read_body (Samples.cv_always_empty (cv_i w) Samples.key u) (PJson JNull))
      with (@ret pyval (PJson JNull)).
    unfold ret at 1.
    match goal with
    | |- context [describe_loop _ _ _ _ _ _ ?w1] =>
        destruct (IH w1) as (w' & E & Hc & Ht)
    end.
    exists w'. rewrite E. cbn [cv_i trace] in Hc, Ht.
    repeat split; [lia|].
    rewrite Ht. cbn [repeat]. apply repeat_shift.
Qed.

(** C4, on the code: a 200 reply with content-length 0 does not end the
    call.  After such a reply the loop sends a second request at once and
    returns what that one brings; and when every reply is an empty 200 the
    call never returns: it sends as many requests as it is given steps. *)
Theorem describe_picture_retries_after_empty_body :
  describe_picture Samples.cv_empty_then_fine Samples.key 5 Samples.harbour_url
                   Samples.start
  = (Ret (PJson (Samples.analysis "a boat in a harbour" false)),
     {| wiki_i := 0; cv_i := 2; img_i := 0;
        trace := [EvPost CVAPI (JDict [("url", Samples.harbour_url)]);
                  EvPost CVAPI (JDict [("url", Samples.harbour_url)])] |}) /\
  (forall fuel, exists w',
      describe_picture Samples.cv_always_empty Samples.key fuel
                       Samples.harbour_url Samples.start = (OutOfFuel, w') /\
      cv_i w' = fuel /\
      trace w' = repeat (EvPost CVAPI (JDict [("url", Samples.harbour_url)])) fuel).
Proof.
  split; [reflexivity|].
  intros fuel. unfold describe_picture.
  destruct (describe_loop_spins_on_empty_bodies Samples.harbour_url fuel Samples.start)
    as (w' & E & Hc & Ht).
  exists w'. split; [exact E|]. split; [exact Hc|].
  rewrite Ht. apply app_nil_r.
Qed.

(** ** The downloader *)

(** The first pass through the loop of [download_picture] decides the call:
    the body on status 200, [TypeError] from the log line otherwise. *)
Lemma download_loop_first_pass imghost fuel u w :
  download_loop imghost (S fuel) u 0 w
  = (if status_code (imghost (img_i w) u) =? 200
     then Ret (content (imghost (img_i w) u))
     else Raise TypeError,
     {| wiki_i := wiki_i w; cv_i := cv_i w; img_i := S (img_i w);
        trace := EvGet u :: trace w |}).
Proof.
  cbn [download_loop]. cbn [Z.leb Z.ltb Z.compare].
  unfold bind, ret, requests_get_image. cbn [Py.str_add lift raise].
  destruct (status_code (imghost (img_i w) u) =? 200); reflexivity.
Qed.

(** C2, on the code: a non-200 reply makes download_picture raise TypeError
    while it builds the log line, after one request and without sleeping;
    so 21 replies of 500 do not lead to "Maximum retries exceeded when
    downloading a picture", a 200 on the fifth reply is never reached, and no
    run at all raises that exception.  A 200 on the first reply returns the
    body. *)
Theorem download_picture_fails_on_first_error :
  download_picture Samples.img_always_500 30 Samples.a_result Samples.start
  = (Raise TypeError,
     {| wiki_i := 0; cv_i := 0; img_i := 1;
        trace := [EvGet "https://upload.example.org/harbour.gif";
                  EvPrint "downloading https://upload.example.org/harbour.gif" []] |}) /\
  download_picture Samples.img_fifth_ok 30 Samples.a_result Samples.start
  = (Raise TypeError,
     {| wiki_i := 0; cv_i := 0; img_i := 1;
        trace := [EvGet "https://upload.example.org/harbour.gif";
                  EvPrint "downloading https://upload.example.org/harbour.gif" []] |}) /\
  (forall imghost fuel self w,
      fst (download_picture imghost fuel self w)
      <> Raise (Exception "Maximum retries exceeded when downloading a picture")) /\
  (forall imghost fuel u self w,
      url self = JStr u ->
      status_code (imghost (img_i w) u) = 200 ->
      fst (download_picture imghost (S fuel) self w)
      = Ret (content (imghost (img_i w) u))).
Proof.
  split; [reflexivity|]. split; [reflexivity|]. split.
  - intros imghost fuel self w. unfold download_picture.
    destruct (url self) as [| | |u| |]; try (cbn; discriminate).
    cbn [Py.str_add lift]. unfold bind at 1. unfold ret at 1.
    unfold bind at 1. unfold print at 1, emit at 1.
    destruct fuel as [|fuel]; [cbn; discriminate|].
    rewrite download_loop_first_pass. cbn [fst img_i].
    destruct (status_code _ =? 200); discriminate.
  - intros imghost fuel u self w Hu Hs. unfold download_picture.
    rewrite Hu. cbn [Py.str_add lift]. unfold bind at 1. unfold ret at 1.
    unfold bind at 1. unfold print at 1, emit at 1.
    rewrite download_loop_first_pass. cbn [fst img_i].
    rewrite Hs. reflexivity.
Qed.

(** ** The category blacklist *)

(** Whatever the page, a category whose title matches the blacklist and that
    has no [name] entry stops the scan with [KeyError]: nothing is printed. *)
Lemma scan_blacklist_without_name category title w :
  Py.getitem category "title" = Val (JStr title) ->
  Text.contains "september 11" (Text.lower title) = true ->
  Py.getitem category "name" = Exn (KeyError (JStr "name")) ->
  scan_blacklist category category_blacklist w
  = (Raise (KeyError (JStr "name")), w).
Proof.
  intros Ht Hc Hn. unfold category_blacklist. cbn [scan_blacklist].
  unfold bind. rewrite Ht. cbn [lift ret Py.str_lower].
  rewrite Hc, Hn. reflexivity.
Qed.

(** C3, on the code: for a page in a blacklisted category, given as the media
    API gives categories (a namespace and a title), get_random_picture raises
    KeyError for the key [name] while it builds the log line: nothing is
    logged and None is not returned.  Only when the category also has a
    [name] entry does the call log the reason and return None. *)
Theorem blacklisted_category_raises_KeyError :
  get_random_picture Samples.word_filter
    (fun _ => Samples.reply
                (Samples.page [Samples.harbours; Samples.attacks] Samples.good_info))
    Samples.start
  = (Raise (KeyError (JStr "name")),
     {| wiki_i := 1; cv_i := 0; img_i := 0; trace := [EvGet MEDIAWIKI_API] |}) /\
  get_random_picture Samples.word_filter
    (fun _ => Samples.reply
                (Samples.page [Samples.harbours; Samples.attacks_named]
                              Samples.good_info))
    Samples.start
  = (Ret JNull,
     {| wiki_i := 1; cv_i := 0; img_i := 0;
        trace := [EvPrint "discarded, category blacklist: September 11 attacks" [];
                  EvGet MEDIAWIKI_API] |}).
Proof. split; reflexivity. Qed.

(** * Further properties of the program *)

(** ** Running a computation forward *)

Lemma bind_lift_val {A B} (r : py A) (k : A -> M B) w a :
  r = Val a -> bind (lift r) k w = k a w.
Proof. intros ->. reflexivity. Qed.

Lemma bind_lift_exn {A B} (r : py A) (k : A -> M B) w e :
  r = Exn e -> bind (lift r) k w = (Raise e, w).
Proof. intros ->. reflexivity. Qed.

Lemma bind_ret_val {A B} (a : A) (k : A -> M B) w : bind (ret a) k w = k a w.
Proof. reflexivity. Qed.

Lemma bind_step {A B} (m : M A) (k : A -> M B) w a w1 :
  m w = (Ret a, w1) -> bind m k w = k a w1.
Proof. unfold bind. intros ->. reflexivity. Qed.

Lemma bind_assoc {A B C} (m : M A) (f : A -> M B) (g : B -> M C) w :
  bind (bind m f) g w = bind m (fun x => bind (f x) g) w.
Proof. unfold bind. destruct (m w) as [[a | e |] w1]; reflexivity. Qed.

Lemma and_then_inv {A B} (r : py A) (k : A -> py B) b :
  Py.and_then r k = Val b -> exists a, r = Val a /\ k a = Val b.
Proof. destruct r; simpl; intros H; [eauto | discriminate]. Qed.

(** Uses the equations in the context to run the next steps of the goal. *)
Ltac forward :=
  repeat first
    [ rewrite bind_assoc
    | erewrite bind_lift_val by eassumption
    | rewrite bind_ret_val
    | erewrite bind_step by eassumption ].

Section Vetting.
Variable blacklisted : string -> bool.
Variable mediawiki : nat -> response.

Lemma scan_blacklist_of_clean category w :
  clean_category category ->
  scan_blacklist category category_blacklist w = (Ret false, w).
Proof.
  intros (title & Ht & Hf). revert Hf.
  induction category_blacklist as [|b bl IH]; intros Hf; cbn [scan_blacklist];
    [reflexivity|].
  inversion Hf as [|? ? Hb Hbl]; subst.
  forward. cbn [Py.str_lower lift]. rewrite bind_ret_val, Hb. auto.
Qed.

Lemma scan_categories_of_clean categories w :
  Forall clean_category categories ->
  scan_categories categories w = (Ret false, w).
Proof.
  induction 1 as [|c cs Hc Hcs IH]; cbn [scan_categories]; [reflexivity|].
  erewrite bind_step by (apply scan_blacklist_of_clean; assumption).
  exact IH.
Qed.

Lemma request_step {B} (k : response -> M B) w :
  bind (requests_get_mediawiki mediawiki) k w
  = k (mediawiki (wiki_i w))
      {| wiki_i := S (wiki_i w); cv_i := cv_i w; img_i := img_i w;
         trace := EvGet MEDIAWIKI_API :: trace w |}.
Proof. reflexivity. Qed.

Lemma response_json_step {B} r j (k : json -> M B) w :
  decoded r = Some j -> bind (response_json r) k w = k j w.
Proof. unfold bind, response_json. intros ->. reflexivity. Qed.

Lemma path_cons v k rest x :
  Py.path v (k :: rest) = Val x ->
  exists y, Py.getitem v k = Val y /\ Py.path y rest = Val x.
Proof. cbn [Py.path]. apply and_then_inv. Qed.

Ltac open_paths :=
  repeat match goal with
         | H : Py.and_then _ _ = Val _ |- _ =>
             apply and_then_inv in H as (? & ? & H)
         | H : Py.path _ (_ :: _) = Val _ |- _ =>
             apply path_cons in H as (? & ? & H)
         | H : Py.path _ [] = Val _ |- _ =>
             cbn [Py.path] in H; injection H as H; subst
         | H : first_page _ = Val _ |- _ => unfold first_page in H
         | H : candidate _ = Val _ |- _ => unfold candidate in H
         end.

Ltac dedup :=
  repeat match goal with
         | H1 : ?a = Val ?x, H2 : ?a = Val ?y |- _ =>
             rewrite H1 in H2; injection H2 as H2;
             first [subst y | subst x | subst | idtac]
         end.

Ltac use_verdicts :=
  repeat match goal with
         | H : ?bl ?t = _ |- context [if ?bl ?t then _ else _] => rewrite H
         end.

Ltac above_50 :=
  repeat match goal with
         | H : 50 < ?z |- context [?z <=? 50] =>
             replace (z <=? 50) with false by (symmetry; apply Z.leb_gt; exact H)
         end.

(** X1: a candidate that passes the seven filters is accepted:
    get_random_picture returns its imageinfo after the one request and prints
    nothing.  With [get_random_picture_accepts] this makes [passed_filters]
    the exact condition of acceptance. *)
Theorem get_random_picture_accepts_what_passes :
  forall w body pic,
    decoded (mediawiki (wiki_i w)) = Some body ->
    passed_filters blacklisted body pic ->
    get_random_picture blacklisted mediawiki w
    = (Ret pic,
       {| wiki_i := S (wiki_i w); cv_i := cv_i w; img_i := img_i w;
          trace := EvGet MEDIAWIKI_API :: trace w |}).
Proof.
  intros w body pic Hb P.
  destruct P as (page & title & oname & restr & cats & width & height & u & P).
  decompose [and] P. clear P.
  open_paths. dedup.
  unfold get_random_picture.
  rewrite request_step. erewrite response_json_step by eassumption.
  repeat (progress (forward; cbn [word_filter_blacklisted]; use_verdicts)).
  erewrite bind_step by (apply scan_categories_of_clean; eassumption).
  cbv iota. forward.
  change (Py.ne_str (JStr "BITMAP") "BITMAP") with false. cbv iota.
  forward. cbn [Py.le Py.as_int lift]. above_50. forward. cbv iota.
  forward. cbn [Py.le Py.as_int lift]. above_50. forward. cbv iota.
  forward. cbv iota. forward.
  match goal with
  | H : supported_formats_search _ = true |- _ => rewrite H
  end.
  reflexivity.
Qed.

(** X2: the file name is checked first: when the page title is blacklisted
    the call returns None and prints "badword " followed by the title,
    whatever the ObjectName, Restrictions, categories, media type, size and
    url are, and even when they are missing. *)
Theorem blacklisted_title_is_rejected_first :
  forall w body page info meta title,
    decoded (mediawiki (wiki_i w)) = Some body ->
    first_page body = Val page ->
    candidate body = Val info ->
    Py.getitem info "extmetadata" = Val meta ->
    Py.getitem page "title" = Val (JStr title) ->
    blacklisted title = true ->
    get_random_picture blacklisted mediawiki w
    = (Ret JNull,
       {| wiki_i := S (wiki_i w); cv_i := cv_i w; img_i := img_i w;
          trace := EvPrint ("badword " ++ title) []
                   :: EvGet MEDIAWIKI_API :: trace w |}).
Proof.
  intros w body page info meta title Hb Hp Hc Hm Ht Hbad.
  open_paths. dedup.
  unfold get_random_picture.
  rewrite request_step. erewrite response_json_step by eassumption.
  repeat (progress (forward; cbn [word_filter_blacklisted]; use_verdicts)).
  cbn [Py.str_add lift]. forward. reflexivity.
Qed.

(** X3: when only the Restrictions text is blacklisted the call returns
    None, and the line it prints shows the ObjectName text, not the
    Restrictions text that was matched. *)
Theorem blacklisted_restrictions_log_object_name :
  forall w body page info title object_name restrictions,
    decoded (mediawiki (wiki_i w)) = Some body ->
    first_page body = Val page ->
    candidate body = Val info ->
    Py.getitem page "title" = Val (JStr title) ->
    blacklisted title = false ->
    Py.path info ["extmetadata"; "ObjectName"; "value"] = Val (JStr object_name) ->
    blacklisted object_name = false ->
    Py.path info ["extmetadata"; "Restrictions"; "value"] = Val (JStr restrictions) ->
    blacklisted restrictions = true ->
    get_random_picture blacklisted mediawiki w
    = (Ret JNull,
       {| wiki_i := S (wiki_i w); cv_i := cv_i w; img_i := img_i w;
          trace := EvPrint ("badword " ++ object_name) []
                   :: EvGet MEDIAWIKI_API :: trace w |}).
Proof.
  intros w body page info title object_name restrictions
         Hb Hp Hc Ht Htc Ho Hoc Hr Hrb.
  open_paths. dedup.
  unfold get_random_picture.
  rewrite request_step. erewrite response_json_step by eassumption.
  repeat (progress (forward; cbn [word_filter_blacklisted]; use_verdicts)).
  cbn [Py.str_add lift]. forward. reflexivity.
Qed.

End Vetting.

(** ** What a call prints and what it leaves alone *)

Section Logs.

Lemma logs_ret {A} n (a : A) : logs_at_most n (ret a).
Proof.
  intros w o w' H. inversion H; subst. repeat split.
  exists []. repeat split. simpl. lia.
Qed.

Lemma logs_raise {A} n e : logs_at_most n (@raise A e).
Proof.
  intros w o w' H. inversion H; subst. repeat split.
  exists []. repeat split. simpl. lia.
Qed.

Lemma logs_lift {A} n (r : py A) : logs_at_most n (lift r).
Proof. destruct r; [apply logs_ret | apply logs_raise]. Qed.

Lemma logs_print text args : logs_at_most 1 (print text args).
Proof.
  intros w o w' H. inversion H; subst. repeat split.
  exists [EvPrint text args]. repeat split. simpl. lia.
Qed.

Lemma logs_weaken {A} n n' (m : M A) :
  (n <= n')%nat -> logs_at_most n m -> logs_at_most n' m.
Proof.
  intros Hn Hm w o w' H.
  destruct (Hm _ _ _ H) as (? & ? & ? & prints & ? & ? & ?).
  repeat (split; [assumption|]). exists prints. repeat split; try assumption. lia.
Qed.

Lemma logs_bind {A B} a b (m : M A) (k : A -> M B) :
  logs_at_most a m -> (forall x, logs_at_most b (k x)) ->
  logs_at_most (a + b) (bind m k).
Proof.
  intros Hm Hk w o w' H. unfold bind in H.
  destruct (m w) as [[x | e |] w1] eqn:E;
    destruct (Hm _ _ _ E) as (H1 & H2 & H3 & p1 & Ht1 & Hp1 & Hl1).
  - destruct (Hk _ _ _ _ H) as (K1 & K2 & K3 & p2 & Ht2 & Hp2 & Hl2).
    repeat (split; [congruence|]).
    exists (p2 ++ p1)%list. rewrite Ht2, Ht1, app_assoc, forallb_app, length_app.
    rewrite Hp1, Hp2. repeat split. lia.
  - inversion H; subst. repeat (split; [assumption|]).
    exists p1. repeat split; try assumption. lia.
  - inversion H; subst. repeat (split; [assumption|]).
    exists p1. repeat split; try assumption. lia.
Qed.

Lemma logs_bind_pure {A B} n (m : M A) (k : A -> M B) :
  logs_at_most 0 m -> (forall x, logs_at_most n (k x)) ->
  logs_at_most n (bind m k).
Proof. intros Hm Hk. exact (logs_bind 0 n m k Hm Hk). Qed.

Lemma logs_bind_last {A B} n (m : M A) (k : A -> M B) :
  logs_at_most n m -> (forall x, logs_at_most 0 (k x)) ->
  logs_at_most n (bind m k).
Proof.
  intros Hm Hk. apply (logs_weaken (n + 0)); [lia|]. now apply logs_bind.
Qed.

Lemma logs_response_json n r : logs_at_most n (response_json r).
Proof.
  unfold response_json. destruct (decoded r); [apply logs_ret | apply logs_raise].
Qed.

Variable blacklisted : string -> bool.
Variable mediawiki : nat -> response.

Lemma logs_word_filter n v : logs_at_most n (word_filter_blacklisted blacklisted v).
Proof. destruct v; first [apply logs_ret | apply logs_raise]. Qed.

Ltac logs_with extra :=
  repeat first
    [ extra
    | apply logs_ret
    | apply logs_raise
    | apply logs_lift
    | apply logs_response_json
    | apply logs_word_filter
    | apply logs_print
    | assumption
    | apply logs_bind_pure; [solve [logs_with extra] | intros ?]
    | apply logs_bind_last; [solve [logs_with extra] | intros ?]
    | match goal with
      | |- logs_at_most _ (if ?c then _ else _) => destruct c
      | |- logs_at_most _ (match ?x with _ => _ end) => destruct x
      end ].

Ltac logs_tac := logs_with fail.

Lemma ret_inv_any {A} (a : A) w o w' :
  ret a w = (o, w') -> o = Ret a /\ w' = w.
Proof. unfold ret. intros H. inversion H. auto. Qed.

Lemma logs_scan_blacklist category bl :
  logs_at_most 1 (scan_blacklist category bl).
Proof. induction bl as [|b bl IH]; cbn [scan_blacklist]; logs_tac. Qed.

Lemma logs_scan_categories categories :
  logs_at_most 1 (scan_categories categories).
Proof.
  induction categories as [|c cs IH]; cbn [scan_categories]; [logs_tac|].
  intros w o w' H. unfold bind in H.
  destruct (scan_blacklist c category_blacklist w) as [[[] | e |] w1] eqn:E.
  - apply ret_inv_any in H as [-> ->].
    destruct (logs_scan_blacklist _ _ _ _ _ E) as (? & ? & ? & p & ? & ? & ?).
    repeat (split; [assumption|]). exists p. auto.
  - apply scan_blacklist_clean in E as [-> _]. exact (IH _ _ _ H).
  - inversion H; subst. exact (logs_scan_blacklist _ _ _ _ _ E).
  - inversion H; subst. exact (logs_scan_blacklist _ _ _ _ _ E).
Qed.


Lemma get_random_picture_frame :
  forall w o w',
    get_random_picture blacklisted mediawiki w = (o, w') ->
    wiki_i w' = S (wiki_i w) /\ cv_i w' = cv_i w /\ img_i w' = img_i w /\
    exists prints,
      trace w' = (prints ++ EvGet MEDIAWIKI_API :: trace w)%list /\
      forallb is_print prints = true /\
      (List.length prints <= 1)%nat.
Proof.
  intros w o w' H.
  unfold get_random_picture in H. rewrite request_step in H. cbv beta in H.
  match type of H with
  | ?m ?w1 = _ =>
      assert (L : logs_at_most 1 m)
        by (clear H; logs_with ltac:(apply logs_scan_categories))
  end.
  apply L in H. cbn [wiki_i cv_i img_i trace] in H. exact H.
Qed.

(** X4: however a call of get_random_picture ends (a picture, None or an
    exception), it has sent exactly one request, to the media API, has not
    slept, and has printed at most one line. *)
Theorem get_random_picture_sends_one_request :
  forall w o w',
    get_random_picture blacklisted mediawiki w = (o, w') ->
    wiki_i w' = S (wiki_i w) /\ cv_i w' = cv_i w /\ img_i w' = img_i w /\
    exists prints,
      trace w' = (prints ++ EvGet MEDIAWIKI_API :: trace w)%list /\
      forallb is_print prints = true /\
      (List.length prints <= 1)%nat.
Proof. exact get_random_picture_frame. Qed.

End Logs.

(** ** The replies of the vision API *)

Section Replies.
Variable cvapi : nat -> string -> json -> response.
Variable apikey : string.
Variable u : json.

Lemma post_step {B} (k : response -> M B) w :
  bind (requests_post_cvapi cvapi apikey u) k w
  = k (cvapi (cv_i w) apikey u)
      {| wiki_i := wiki_i w; cv_i := S (cv_i w); img_i := img_i w;
         trace := EvPost CVAPI (JDict [("url", u)]) :: trace w |}.
Proof. reflexivity. Qed.

Lemma describe_loop_failed_rounds : forall k fuel retries w,
  retries = 15 - Z.of_nat k ->
  (k <= 15)%nat ->
  (k <= fuel)%nat ->
  (forall j, (j < k)%nat ->
     status_code (cvapi (cv_i w + j) apikey u) <> 200 /\
     status_code (cvapi (cv_i w + j) apikey u) <> 201 /\
     decoded (cvapi (cv_i w + j) apikey u) <> None) ->
  exists w',
    describe_loop cvapi apikey fuel u retries (PJson JNull) w
    = (Ret (PJson JNull), w') /\
    cv_i w' = (cv_i w + k)%nat /\
    wiki_i w' = wiki_i w /\ img_i w' = img_i w /\
    trace w' = (failed_rounds cvapi apikey u (cv_i w) retries k ++ trace w)%list.
Proof.
  induction k as [|k IH]; intros fuel retries w Hr Hk Hf Hresp.
  - exists w. replace retries with 15 by lia.
    destruct fuel; simpl; rewrite Nat.add_0_r; auto.
  - destruct fuel as [|fuel]; [lia|].
    destruct (Hresp 0%nat ltac:(lia)) as (H200 & H201 & Hd).
    rewrite Nat.add_0_r in H200, H201, Hd.
    destruct (decoded (cvapi (cv_i w) apikey u)) as [body|] eqn:Eb; [|congruence].
    assert (Hlt : (retries <? 15) = true) by (apply Z.ltb_lt; lia).
    apply Z.eqb_neq in H200, H201.
    cbn [describe_loop]. rewrite Hlt. cbn [pyval_truthy Py.truthy negb andb].
    rewrite post_step. rewrite H200, H201. cbn [orb].
    unfold failed_rounds; fold failed_rounds. unfold failed_round, message_of.
    rewrite Eb.
    destruct (status_code (cvapi (cv_i w) apikey u) =? 429) eqn:E429.
    + erewrite response_json_step by exact Eb.
      unfold bind at 1. unfold print at 1, emit at 1. unfold bind at 1.
      unfold sleep at 1, emit at 1. cbn [wiki_i cv_i img_i trace].
      match goal with
      | |- context [describe_loop _ _ _ _ _ _ ?w1] =>
          destruct (IH fuel (retries + 1) w1) as (w' & E & Hc & Hw & Hi & Ht)
      end; try lia.
      * cbn [cv_i]. intros j Hj.
        replace (S (cv_i w) + j)%nat with (cv_i w + S j)%nat by lia.
        apply Hresp. lia.
      * exists w'. split; [exact E|].
        cbn [cv_i wiki_i img_i trace] in Hc, Hw, Hi, Ht.
        repeat split; try assumption; try lia.
        rewrite Ht, <- app_assoc. reflexivity.
    + unfold bind at 1. unfold print at 1, emit at 1.
      unfold bind at 1. unfold print at 1, emit at 1.
      erewrite response_json_step by exact Eb.
      unfold bind at 1. unfold print at 1, emit at 1.
      unfold bind at 1. unfold sleep at 1, emit at 1.
      cbn [wiki_i cv_i img_i trace].
      match goal with
      | |- context [describe_loop _ _ _ _ _ _ ?w1] =>
          destruct (IH fuel (retries + 1) w1) as (w' & E & Hc & Hw & Hi & Ht)
      end; try lia.
      * cbn [cv_i]. intros j Hj.
        replace (S (cv_i w) + j)%nat with (cv_i w + S j)%nat by lia.
        apply Hresp. lia.
      * exists w'. split; [exact E|].
        cbn [cv_i wiki_i img_i trace] in Hc, Hw, Hi, Ht.
        repeat split; try assumption; try lia.
        rewrite Ht, <- app_assoc. reflexivity.
Qed.

(** X5: the 429 branch and the branch for other error statuses count
    against the same budget: when each of the next fifteen replies has a
    status other than 200 and 201 and a JSON body, in any mix of 429 and
    other codes, describe_picture sends exactly fifteen requests and returns
    None; a 429 is followed by a sleep of 2, another status, met with the
    counter at [retries], by a sleep of 10 + 3 * (retries + 1). *)
Theorem describe_picture_shares_one_budget :
  forall fuel w,
    (15 <= fuel)%nat ->
    (forall j, (j < 15)%nat ->
       status_code (cvapi (cv_i w + j) apikey u) <> 200 /\
       status_code (cvapi (cv_i w + j) apikey u) <> 201 /\
       decoded (cvapi (cv_i w + j) apikey u) <> None) ->
    exists w',
      describe_picture cvapi apikey fuel u w = (Ret (PJson JNull), w') /\
      cv_i w' = (cv_i w + 15)%nat /\
      trace w' = (failed_rounds cvapi apikey u (cv_i w) 0 15 ++ trace w)%list.
Proof.
  intros fuel w Hfuel Hresp. unfold describe_picture.
  destruct (describe_loop_failed_rounds 15 fuel 0 w)
    as (w' & E & Hc & _ & _ & Ht); try lia; try assumption.
  exists w'. auto.
Qed.


Lemma read_body_announced r result :
  announces_body r ->
  forall w,
    read_body r result w
    = match header "content-type" (headers r) with
      | Some ct =>
          if Text.contains "application/json" (Text.lower ct)
          then (if negb (Text.is_empty (content r))
                then (j <- response_json r ;; ret (PJson j)) w
                else (Ret (PJson JNull), w))
          else if Text.contains "image" (Text.lower ct)
          then (Ret (PBytes (content r)), w)
          else (Ret result, w)
      | None => (Ret result, w)
      end.
Proof.
  intros [Hnone | (v & n & Hv & Hn & Hz)] w; unfold read_body.
  - rewrite Hnone, bind_ret_val.
    destruct (header "content-type" (headers r)) as [ct|]; [|reflexivity].
    destruct (Text.contains "application/json" (Text.lower ct)).
    + destruct (negb (Text.is_empty (content r))); reflexivity.
    + destruct (Text.contains "image" (Text.lower ct)); reflexivity.
  - rewrite Hv, Hn, bind_ret_val.
    apply Z.eqb_neq in Hz. rewrite Hz.
    destruct (header "content-type" (headers r)) as [ct|]; [|reflexivity].
    destruct (Text.contains "application/json" (Text.lower ct)).
    + destruct (negb (Text.is_empty (content r))); reflexivity.
    + destruct (Text.contains "image" (Text.lower ct)); reflexivity.
Qed.

Lemma describe_loop_done fuel retries result w :
  pyval_truthy result = true ->
  describe_loop cvapi apikey fuel u retries result w = (Ret result, w).
Proof.
  intros H. destruct fuel; cbn [describe_loop]; rewrite H, andb_false_r;
    reflexivity.
Qed.

(** X6: a reply with status 200 or 201, a JSON content type, a body that is
    announced and present and that decodes to a truthy value ends
    describe_picture at once: the decoded body is returned after one request
    and without a sleep. *)
Theorem describe_picture_returns_json_body :
  forall fuel w r ct j,
    r = cvapi (cv_i w) apikey u ->
    (1 <= fuel)%nat ->
    status_code r = 200 \/ status_code r = 201 ->
    announces_body r ->
    header "content-type" (headers r) = Some ct ->
    Text.contains "application/json" (Text.lower ct) = true ->
    Text.is_empty (content r) = false ->
    decoded r = Some j ->
    Py.truthy j = true ->
    describe_picture cvapi apikey fuel u w
    = (Ret (PJson j),
       {| wiki_i := wiki_i w; cv_i := S (cv_i w); img_i := img_i w;
          trace := EvPost CVAPI (JDict [("url", u)]) :: trace w |}).
Proof.
  intros fuel w r ct j -> Hfuel Hs Ha Hct Hjson Hne Hd Ht.
  destruct fuel as [|fuel]; [lia|].
  unfold describe_picture. cbn [describe_loop].
  cbn [Z.ltb Z.compare pyval_truthy Py.truthy negb andb].
  rewrite post_step.
  assert (E : (status_code (cvapi (cv_i w) apikey u) =? 429) = false)
    by (apply Z.eqb_neq; lia).
  assert (E2 : ((status_code (cvapi (cv_i w) apikey u) =? 200)
                || (status_code (cvapi (cv_i w) apikey u) =? 201)) = true)
    by (apply orb_true_iff; destruct Hs as [-> | ->]; auto).
  rewrite E, E2.
  unfold bind at 1. rewrite (read_body_announced _ _ Ha).
  rewrite Hct, Hjson, Hne. cbn [negb].
  erewrite response_json_step by exact Hd. unfold ret at 1.
  apply describe_loop_done. exact Ht.
Qed.

(** X13: a 200 or 201 reply whose content type names an image makes
    describe_picture return the raw bytes, and the orchestrator's check of
    that result then raises TypeError ([result['description']] on bytes)
    instead of counting a failed cycle. *)
Theorem image_reply_makes_the_cycle_raise :
  forall blacklisted pic fuel w r ct,
    r = cvapi (cv_i w) apikey u ->
    (1 <= fuel)%nat ->
    status_code r = 200 \/ status_code r = 201 ->
    announces_body r ->
    header "content-type" (headers r) = Some ct ->
    Text.contains "application/json" (Text.lower ct) = false ->
    Text.contains "image" (Text.lower ct) = true ->
    Text.is_empty (content r) = false ->
    describe_picture cvapi apikey fuel u w
    = (Ret (PBytes (content r)),
       {| wiki_i := wiki_i w; cv_i := S (cv_i w); img_i := img_i w;
          trace := EvPost CVAPI (JDict [("url", u)]) :: trace w |}) /\
    (result <- describe_picture cvapi apikey fuel u ;;
     judge blacklisted pic u result) w
    = (Raise TypeError,
       {| wiki_i := wiki_i w; cv_i := S (cv_i w); img_i := img_i w;
          trace := EvPost CVAPI (JDict [("url", u)]) :: trace w |}).
Proof.
  intros blacklisted pic fuel w r ct -> Hfuel Hs Ha Hct Hjson Himg Hne.
  assert (D : describe_picture cvapi apikey fuel u w
              = (Ret (PBytes (content (cvapi (cv_i w) apikey u))),
                 {| wiki_i := wiki_i w; cv_i := S (cv_i w); img_i := img_i w;
                    trace := EvPost CVAPI (JDict [("url", u)]) :: trace w |})).
  { destruct fuel as [|fuel]; [lia|].
    unfold describe_picture. cbn [describe_loop].
    cbn [Z.ltb Z.compare pyval_truthy Py.truthy negb andb].
    rewrite post_step.
    assert (E : (status_code (cvapi (cv_i w) apikey u) =? 429) = false)
      by (apply Z.eqb_neq; lia).
    assert (E2 : ((status_code (cvapi (cv_i w) apikey u) =? 200)
                  || (status_code (cvapi (cv_i w) apikey u) =? 201)) = true)
      by (apply orb_true_iff; destruct Hs as [-> | ->]; auto).
    rewrite E, E2.
    unfold bind at 1. rewrite (read_body_announced _ _ Ha).
    rewrite Hct, Hjson, Himg.
    apply describe_loop_done. cbn [pyval_truthy]. now rewrite Hne. }
  split; [exact D|].
  erewrite bind_step by exact D. reflexivity.
Qed.


Lemma read_body_world r result w o w' :
  read_body r result w = (o, w') -> w' = w.
Proof.
  unfold read_body.
  assert (Tail : forall o w',
             match header "content-type" (headers r) with
             | Some ct =>
                 if Text.contains "application/json" (Text.lower ct)
                 then (if negb (Text.is_empty (content r))
                       then j <- response_json r ;; ret (PJson j)
                       else ret (PJson JNull))
                 else if Text.contains "image" (Text.lower ct)
                 then ret (PBytes (content r))
                 else ret result
             | None => ret result
             end w = (o, w') -> w' = w).
  { intros o0 w0. unfold bind, response_json, ret, raise.
    destruct (header "content-type" (headers r)) as [ct|].
    - destruct (Text.contains "application/json" (Text.lower ct)).
      + destruct (negb (Text.is_empty (content r))).
        * destruct (decoded r); intros H; now inversion H.
        * intros H; now inversion H.
      + destruct (Text.contains "image" (Text.lower ct)); intros H; now inversion H.
    - intros H; now inversion H. }
  destruct (header "content-length" (headers r)) as [v|].
  - destruct (Text.parse_int v) as [n|].
    + rewrite bind_ret_val. destruct (n =? 0).
      * intros H. now inversion H.
      * apply Tail.
    + intros H. now inversion H.
  - rewrite bind_ret_val. apply Tail.
Qed.

Lemma describe_loop_sleeps fuel : forall retries result w o w',
  0 <= retries ->
  describe_loop cvapi apikey fuel u retries result w = (o, w') ->
  wiki_i w' = wiki_i w /\ img_i w' = img_i w /\
  exists evs,
    trace w' = (evs ++ trace w)%list /\
    (List.length (filter is_sleep evs) <= Z.to_nat (15 - retries))%nat /\
    forallb short_sleep evs = true.
Proof.
  induction fuel as [|fuel IH]; intros retries result w o w' Hr H;
    cbn [describe_loop] in H;
    destruct ((retries <? 15) && negb (pyval_truthy result)) eqn:C;
    try (inversion H; subst; repeat split; exists []; repeat split;
         simpl; lia).
  apply andb_true_iff in C as [C _]. apply Z.ltb_lt in C.
  rewrite post_step in H.
  set (r := cvapi (cv_i w) apikey u) in *.
  set (w1 := {| wiki_i := wiki_i w; cv_i := S (cv_i w); img_i := img_i w;
                trace := EvPost CVAPI (JDict [("url", u)]) :: trace w |}) in *.
  assert (Stop : forall evs,
             forallb short_sleep evs = true ->
             filter is_sleep evs = [] ->
             exists evs',
               ((evs ++ trace w1) = evs' ++ trace w)%list /\
               (List.length (filter is_sleep evs') <= Z.to_nat (15 - retries))%nat /\
               forallb short_sleep evs' = true).
  { intros evs Hs Hf. exists (evs ++ [EvPost CVAPI (JDict [("url", u)])])%list.
    rewrite <- app_assoc, filter_app, forallb_app, Hf, Hs.
    cbn [filter is_sleep List.length forallb short_sleep andb app].
    repeat split. lia. }
  assert (Go : forall evs w2 retries',
             trace w2 = (evs ++ trace w1)%list ->
             wiki_i w2 = wiki_i w -> img_i w2 = img_i w ->
             forallb short_sleep evs = true ->
             0 <= retries' ->
             (List.length (filter is_sleep evs) + Z.to_nat (15 - retries')
              <= Z.to_nat (15 - retries))%nat ->
             forall res, describe_loop cvapi apikey fuel u retries' res w2 = (o, w') ->
             wiki_i w' = wiki_i w /\ img_i w' = img_i w /\
             exists evs',
               trace w' = (evs' ++ trace w)%list /\
               (List.length (filter is_sleep evs') <= Z.to_nat (15 - retries))%nat /\
               forallb short_sleep evs' = true).
  { intros evs w2 retries' Ht Hw Hi Hs Hr' Hn res Hrec.
    destruct (IH _ _ _ _ _ Hr' Hrec) as (Kw & Ki & evs2 & Kt & Kn & Ks).
    split; [congruence|]. split; [congruence|].
    exists (evs2 ++ evs ++ [EvPost CVAPI (JDict [("url", u)])])%list.
    rewrite Kt, Ht. unfold w1. cbn [trace].
    rewrite <- !app_assoc. split; [reflexivity|].
    rewrite !filter_app, !length_app, !forallb_app, Ks, Hs.
    cbn [filter is_sleep List.length forallb short_sleep andb].
    split; [lia | reflexivity]. }
  destruct (status_code r =? 429) eqn:E429.
  - unfold bind at 1, response_json at 1 in H.
    destruct (decoded r) as [body|].
    + unfold ret at 1 in H. unfold bind at 1, print at 1, emit at 1 in H.
      assert (Hlt : (retries <? 15) = true) by (apply Z.ltb_lt; lia).
      rewrite Hlt in H. unfold bind at 1, sleep at 1, emit at 1 in H.
      eapply (Go [EvSleep 2; EvPrint "Message: %s" [body]] _ (retries + 1));
        try exact H; try reflexivity;
        cbn [filter is_sleep List.length]; lia.
    + inversion H; subst. repeat split.
      destruct (Stop [] eq_refl eq_refl) as (evs' & Ht & Hn & Hs).
      exists evs'. auto.
  - destruct ((status_code r =? 200) || (status_code r =? 201)).
    + unfold bind at 1 in H.
      destruct (read_body r result w1) as [[res | e |] w2] eqn:Eb;
        pose proof (read_body_world _ _ _ _ _ Eb) as ->.
      * eapply (Go [] _ retries); try exact H; try reflexivity;
          cbn [filter is_sleep List.length]; lia.
      * inversion H; subst. repeat split.
        destruct (Stop [] eq_refl eq_refl) as (evs' & Ht & Hn & Hs).
        exists evs'. auto.
      * inversion H; subst. repeat split.
        destruct (Stop [] eq_refl eq_refl) as (evs' & Ht & Hn & Hs).
        exists evs'. auto.
    + unfold bind at 1, print at 1, emit at 1 in H.
      unfold bind at 1, print at 1, emit at 1 in H.
      unfold bind at 1, response_json at 1 in H.
      destruct (decoded r) as [body|].
      * unfold ret at 1 in H. unfold bind at 1, print at 1, emit at 1 in H.
        unfold bind at 1, sleep at 1, emit at 1 in H.
        eapply (Go [EvSleep (10 + (retries + 1) * 3); EvPrint "%s" [body];
                    EvPrint "url: %s" [u];
                    EvPrint "Error code: %d" [JInt (status_code r)]]
                   _ (retries + 1));
          try exact H; try reflexivity; try lia.
        -- cbn [forallb short_sleep andb].
           replace (2 <=? 10 + (retries + 1) * 3) with true
             by (symmetry; apply Z.leb_le; lia).
           replace (10 + (retries + 1) * 3 <=? 55) with true
             by (symmetry; apply Z.leb_le; lia).
           reflexivity.
        -- cbn [filter is_sleep List.length]. lia.
      * inversion H; subst. repeat split.
        destruct (Stop [EvPrint "url: %s" [u];
                        EvPrint "Error code: %d" [JInt (status_code r)]]
                       eq_refl eq_refl) as (evs' & Ht & Hn & Hs).
        exists evs'. auto.
Qed.

(** X7: however a call of describe_picture ends, it has slept at most
    fifteen times, each time for at least 2 and at most 55, and it has sent
    nothing to the media API or to an image host. *)
Theorem describe_picture_sleeps_at_most_15_times :
  forall fuel w o w',
    describe_picture cvapi apikey fuel u w = (o, w') ->
    wiki_i w' = wiki_i w /\ img_i w' = img_i w /\
    exists evs,
      trace w' = (evs ++ trace w)%list /\
      (List.length (filter is_sleep evs) <= 15)%nat /\
      forallb short_sleep evs = true.
Proof.
  intros fuel w o w' H. unfold describe_picture in H.
  apply describe_loop_sleeps in H; [|lia]. exact H.
Qed.

End Replies.

(** ** The cycles of the orchestrator *)

Section Cycles.
Variable blacklisted : string -> bool.
Variable mediawiki : nat -> response.
Variable cvapi : nat -> string -> json -> response.
Variable apikey : string.

Lemma gt_inv v n b : Py.gt v n = Val b -> exists z, Py.as_int v = Val z /\ b = (n <? z).
Proof.
  unfold Py.gt. destruct (Py.as_int v); intros H; [|discriminate].
  injection H as <-. eauto.
Qed.

Lemma attempt_url fuel w r w' :
  attempt blacklisted mediawiki cvapi apikey fuel JNull w = (Ret (Some r), w') ->
  exists w0 w1 pic size,
    get_random_picture blacklisted mediawiki w0 = (Ret pic, w1) /\
    pic <> JNull /\
    Py.and_then (Py.getitem pic "size") Py.as_int = Val size /\
    Py.getitem pic (if 4000000 <? size then "thumburl" else "url")
    = Val (url r).
Proof.
  unfold attempt. intros H.
  apply bind_ret_inv in H as (pic & w1 & Hf & H).
  apply fetch_loop_inv in Hf as [N [[<- _] | [w0 Hg]]]; [contradiction|].
  minv H;
    match goal with
    | J : judge _ _ _ _ _ = _ |- _ =>
        apply judge_inv in J
          as (? & ? & ? & ? & ? & _ & _ & _ & _ & _ & _ & _ & _ & _ & Hu & _)
    end;
    match goal with
    | G : Py.gt _ _ = Val _ |- _ => apply gt_inv in G as (z & Hz & Hb)
    end;
    exists w0, w1, pic, z;
    (split; [exact Hg|]); (split; [exact N|]);
    match goal with
    | E : Py.getitem pic "size" = Val _ |- _ => rewrite E
    end; cbn [Py.and_then]; (split; [exact Hz|]);
    rewrite <- Hb, Hu; assumption.
Qed.


(** X8: the url of a returned Result, which is also the url that was sent to
    the vision API, is the picture's thumburl when its size is above
    4000000 and its url otherwise. *)
Theorem result_url_is_thumbnail_of_big_pictures :
  forall fuel max_retries w r w',
    get_picture_and_description blacklisted mediawiki cvapi apikey
                                fuel max_retries w = (Ret r, w') ->
    exists w0 w1 pic size,
      get_random_picture blacklisted mediawiki w0 = (Ret pic, w1) /\
      pic <> JNull /\
      Py.and_then (Py.getitem pic "size") Py.as_int = Val size /\
      Py.getitem pic (if 4000000 <? size then "thumburl" else "url")
      = Val (url r).
Proof.
  intros fuel max_retries w r w' H.
  unfold get_picture_and_description in H.
  apply retry_loop_inv in H as [wa Ha].
  exact (attempt_url _ _ _ _ Ha).
Qed.

Lemma retry_loop_after_rejections fuel max_retries k : forall n retries w w1,
  rejected_cycles (attempt blacklisted mediawiki cvapi apikey fuel JNull) k w w1 ->
  retries + Z.of_nat k <= max_retries ->
  (k < n)%nat ->
  cycles w1 = (cycles w + k)%nat /\
  retry_loop blacklisted mediawiki cvapi apikey fuel n max_retries retries JNull w
  = (r <- attempt blacklisted mediawiki cvapi apikey fuel JNull ;;
     match r with
     | Some res => ret res
     | None =>
         print "Not good, retrying..." [] ;;
         sleep 3 ;;
         retry_loop blacklisted mediawiki cvapi apikey fuel (n - S k) max_retries
                    (retries + Z.of_nat k + 1) JNull
     end) w1.
Proof.
  induction k as [|k IH]; intros n retries w w1 Hrej Hle Hn.
  - inversion Hrej; subst. split; [lia|].
    destruct n as [|n]; [lia|]. cbn [retry_loop].
    replace (retries <=? max_retries) with true by (symmetry; apply Z.leb_le; lia).
    replace (S n - 1)%nat with n by lia.
    replace (retries + Z.of_nat 0 + 1) with (retries + 1) by lia.
    reflexivity.
  - inversion Hrej as [|k' w0 wa wb Ha Hrest]; subst.
    destruct n as [|n]; [lia|].
    destruct (IH n (retries + 1) _ _ Hrest) as [Hc Hl]; [lia | lia |].
    split.
    + rewrite Hc. unfold after_notice, cycles. cbn [trace filter is_retry_notice].
      pose proof (quiet_attempt _ _ _ _ _ _ _ _ _ Ha) as Hq. unfold cycles in Hq.
      simpl. lia.
    + cbn [retry_loop].
      replace (retries <=? max_retries) with true by (symmetry; apply Z.leb_le; lia).
      erewrite bind_step by exact Ha. cbv beta iota.
      unfold bind at 1, print at 1, emit at 1.
      unfold bind at 1, sleep at 1, emit at 1.
      cbn [wiki_i cv_i img_i trace].
      unfold after_notice in Hl.
      rewrite Hl.
      replace (S n - S (S k))%nat with (n - S k)%nat by lia.
      replace (retries + 1 + Z.of_nat k + 1)
        with (retries + Z.of_nat (S k) + 1) by lia.
      reflexivity.
Qed.

(** X9: after [k] cycles that end without a result, with k <= max_retries,
    the next cycle decides the call: a Result it builds is returned, and an
    exception it raises leaves get_picture_and_description, although retries
    remain.  At that point the call has printed the retry notice [k] times. *)
Theorem first_cycle_that_is_not_rejected_decides :
  forall fuel max_retries k w w1,
    rejected_cycles (attempt blacklisted mediawiki cvapi apikey fuel JNull) k w w1 ->
    Z.of_nat k <= max_retries ->
    (k < fuel)%nat ->
    cycles w1 = (cycles w + k)%nat /\
    (forall r w2,
        attempt blacklisted mediawiki cvapi apikey fuel JNull w1
        = (Ret (Some r), w2) ->
        get_picture_and_description blacklisted mediawiki cvapi apikey
                                    fuel max_retries w = (Ret r, w2)) /\
    (forall e w2,
        attempt blacklisted mediawiki cvapi apikey fuel JNull w1
        = (Raise e, w2) ->
        get_picture_and_description blacklisted mediawiki cvapi apikey
                                    fuel max_retries w = (Raise e, w2)).
Proof.
  intros fuel max_retries k w w1 Hrej Hk Hfuel.
  destruct (retry_loop_after_rejections fuel max_retries k fuel 0 w w1 Hrej)
    as [Hc Hl]; [lia | exact Hfuel |].
  split; [exact Hc|].
  unfold get_picture_and_description. rewrite Hl.
  split; intros ? w2 Ha; unfold bind; rewrite Ha; reflexivity.
Qed.

Lemma fetch_loop_never_ends :
  (forall w0, exists w1,
      get_random_picture blacklisted mediawiki w0 = (Ret JNull, w1)) ->
  forall fuel w, exists w',
    fetch_loop blacklisted mediawiki fuel JNull w = (OutOfFuel, w') /\
    wiki_i w' = (wiki_i w + fuel)%nat /\
    cv_i w' = cv_i w /\
    cycles w' = cycles w /\
    List.length (filter is_sleep (trace w'))
    = (List.length (filter is_sleep (trace w)) + fuel)%nat.
Proof.
  intros Hbad. induction fuel as [|fuel IH]; intros w.
  - exists w. cbn [fetch_loop Py.is_none]. repeat split; lia.
  - destruct (Hbad w) as [w1 Hg].
    destruct (get_random_picture_frame _ _ _ _ _ Hg)
      as (Hw & Hcv & _ & prints & Ht & Hp & _).
    pose proof (quiet_get_random_picture _ _ _ _ _ Hg) as Hq.
    cbn [fetch_loop Py.is_none].
    erewrite bind_step by exact Hg. cbn [Py.is_none].
    unfold bind at 1. unfold sleep at 1, emit at 1.
    match goal with
    | |- context [fetch_loop _ _ _ _ ?w2] =>
        destruct (IH w2) as (w' & E & Kw & Kv & Kc & Ks)
    end.
    exists w'. split; [exact E|].
    cbn [wiki_i cv_i trace] in Kw, Kv, Ks. unfold cycles in *. cbn [trace] in Kc.
    cbn [filter is_retry_notice is_sleep List.length] in Kc, Ks.
    rewrite Kw, Kv, Kc, Ks, Hw, Hcv, Hq, Ht.
    rewrite !filter_app, !length_app.
    assert (Hnone : filter is_sleep prints = []).
    { clear - Hp. induction prints as [|e l IHl]; [reflexivity|].
      simpl in Hp. apply andb_true_iff in Hp as [He Hl].
      destruct e; try discriminate He. simpl. auto. }
    rewrite Hnone. cbn [filter is_sleep List.length app].
    repeat split; lia.
Qed.

(** X10: max_retries does not bound the search for a picture: when the
    media API never offers an acceptable candidate, the call is still in its
    first cycle after any number of steps, with one request and one sleep
    per step, no request to the vision API and no cycle counted. *)
Theorem polling_for_a_picture_is_unbounded :
  (forall w0, exists w1,
      get_random_picture blacklisted mediawiki w0 = (Ret JNull, w1)) ->
  forall fuel max_retries w,
    0 <= max_retries ->
    (1 <= fuel)%nat ->
    exists w',
      get_picture_and_description blacklisted mediawiki cvapi apikey
                                  fuel max_retries w = (OutOfFuel, w') /\
      wiki_i w' = (wiki_i w + fuel)%nat /\
      cv_i w' = cv_i w /\
      cycles w' = cycles w /\
      List.length (filter is_sleep (trace w'))
      = (List.length (filter is_sleep (trace w)) + fuel)%nat.
Proof.
  intros Hbad fuel max_retries w Hm Hfuel.
  destruct (fetch_loop_never_ends Hbad fuel w) as (w' & E & Hw & Hv & Hc & Hs).
  exists w'.
  unfold get_picture_and_description.
  destruct fuel as [|n]; [lia|].
  cbn [retry_loop].
  replace (0 <=? max_retries) with true by (symmetry; apply Z.leb_le; lia).
  unfold attempt. unfold bind at 1. unfold bind at 1. rewrite E.
  repeat split; assumption.
Qed.

End Cycles.

(** ** The log line of [gender_neutralize] *)

(** X11: gender_neutralize prints its log line exactly when the text it
    returns differs from its argument (so also when only letter case or
    spacing changed); otherwise it leaves the world as it found it. *)
Theorem gender_neutralize_logs_exactly_what_it_changes :
  forall (phrase : string) (w : world),
  exists out,
    (out = phrase /\ gender_neutralize (JStr phrase) w = (Ret out, w)) \/
    (out <> phrase /\
     gender_neutralize (JStr phrase) w
     = (Ret out,
        {| wiki_i := wiki_i w; cv_i := cv_i w; img_i := img_i w;
           trace := EvPrint ("Gender neutralized: " ++ dquote ++ "{0}" ++ dquote
                             ++ " => " ++ dquote ++ "{1}" ++ dquote)
                            [JStr phrase; JStr out] :: trace w |})).
Proof.
  intros phrase w.
  exists (Text.join " " (neutral_tokens phrase)).
  unfold gender_neutralize, neutral_tokens.
  cbn [Py.str_lower lift]. rewrite bind_ret_val.
  destruct (String.eqb
              (Text.join " " (map (replace_word gendered_words)
                                  (Text.split (Text.lower phrase)))) phrase) eqn:E.
  - left. apply String.eqb_eq in E. split; [exact E|]. reflexivity.
  - right. apply String.eqb_neq in E. split; [exact E|]. reflexivity.
Qed.

Lemma split_from_only_spaces s :
  only_spaces s = true -> Text.split_from EmptyString s = [].
Proof.
  induction s as [|c s IH]; simpl; [reflexivity|].
  intros H. apply andb_true_iff in H as [Hc Hs]. rewrite Hc. auto.
Qed.

Lemma only_spaces_lower s : only_spaces (Text.lower s) = only_spaces s.
Proof.
  induction s as [|c s IH]; simpl; [reflexivity|].
  now rewrite is_space_lower, IH.
Qed.

(** X12: a phrase of white space only, the empty phrase included, is
    neutralized to the empty string; for the empty phrase nothing is
    printed. *)
Theorem gender_neutralize_of_blank_phrase :
  forall (phrase : string) (w : world),
    only_spaces phrase = true ->
    exists w', gender_neutralize (JStr phrase) w = (Ret EmptyString, w') /\
               (phrase = EmptyString -> w' = w).
Proof.
  intros phrase w H.
  assert (N : Text.join " " (neutral_tokens phrase) = EmptyString).
  { unfold neutral_tokens, Text.split.
    rewrite split_from_only_spaces by (now rewrite only_spaces_lower).
    reflexivity. }
  destruct (gender_neutralize_returns phrase w) as [w1 E1].
  rewrite N in E1. exists w1. split; [exact E1|].
  intros ->. inversion E1. reflexivity.
Qed.

(** ** The further properties on the sample environments *)

(** X1 at the sample page. *)
Lemma get_random_picture_accepts_what_passes_witness :
  get_random_picture Samples.word_filter Samples.wiki_good Samples.start
  = (Ret Samples.good_info,
     {| wiki_i := 1; cv_i := 0; img_i := 0; trace := [EvGet MEDIAWIKI_API] |}).
Proof.
  apply (get_random_picture_accepts_what_passes
           Samples.word_filter Samples.wiki_good Samples.start
           (JDict [("batchcomplete", JStr "");
                   ("query", JDict [("pages", JDict [("1", Samples.good_page)])])])
           Samples.good_info); [reflexivity|].
  exists Samples.good_page, "File:Harbour at dusk.jpg", "Harbour at dusk",
         EmptyString, [Samples.harbours], 800, 600,
         "https://upload.example.org/harbour.JPG".
  repeat split; try reflexivity.
  constructor; [|constructor].
  exists "Category:Harbours". split; [reflexivity|].
  constructor; [reflexivity | constructor].
Defined.

(** X2 at a page named after a listed word. *)
Lemma blacklisted_title_is_rejected_first_witness :
  get_random_picture Samples.word_filter MoreSamples.wiki_banned_title Samples.start
  = (Ret JNull,
     {| wiki_i := 1; cv_i := 0; img_i := 0;
        trace := [EvPrint "badword File:Nazi rally 1936.jpg" [];
                  EvGet MEDIAWIKI_API] |}).
Proof.
  apply (blacklisted_title_is_rejected_first
           Samples.word_filter MoreSamples.wiki_banned_title Samples.start
           (JDict [("batchcomplete", JStr "");
                   ("query", JDict [("pages",
                                     JDict [("1", MoreSamples.banned_title_page)])])])
           MoreSamples.banned_title_page Samples.good_info
           (JDict [("ObjectName", JDict [("value", JStr "Harbour at dusk")]);
                   ("Restrictions", JDict [("value", JStr "")])])
           "File:Nazi rally 1936.jpg"); reflexivity.
Defined.

(** X3 at a picture with a listed word in its restrictions. *)
Lemma blacklisted_restrictions_log_object_name_witness :
  get_random_picture Samples.word_filter MoreSamples.wiki_restricted Samples.start
  = (Ret JNull,
     {| wiki_i := 1; cv_i := 0; img_i := 0;
        trace := [EvPrint "badword Flag on a pole" []; EvGet MEDIAWIKI_API] |}).
Proof.
  apply (blacklisted_restrictions_log_object_name
           Samples.word_filter MoreSamples.wiki_restricted Samples.start
           (JDict [("batchcomplete", JStr "");
                   ("query",
                    JDict [("pages",
                            JDict [("1", Samples.page [Samples.harbours]
                                           MoreSamples.restricted_info)])])])
           (Samples.page [Samples.harbours] MoreSamples.restricted_info)
           MoreSamples.restricted_info
           "File:Harbour at dusk.jpg" "Flag on a pole" "insignia|nazi symbol");
    reflexivity.
Defined.

(** X4 at the run that rejects the restricted picture. *)
Lemma get_random_picture_sends_one_request_witness :
  exists prints,
    [EvPrint "badword Flag on a pole" []; EvGet MEDIAWIKI_API]
    = (prints ++ [EvGet MEDIAWIKI_API])%list /\
    forallb is_print prints = true /\
    (List.length prints <= 1)%nat.
Proof.
  exact (proj2 (proj2 (proj2
           (get_random_picture_sends_one_request
              Samples.word_filter MoreSamples.wiki_restricted Samples.start
              (Ret JNull)
              {| wiki_i := 1; cv_i := 0; img_i := 0;
                 trace := [EvPrint "badword Flag on a pole" [];
                           EvGet MEDIAWIKI_API] |}
              eq_refl)))).
Defined.

(** X5 with a server that answers 429 and 503 in turn. *)
Lemma describe_picture_shares_one_budget_witness :
  exists w',
    describe_picture MoreSamples.cv_flaky Samples.key 20 Samples.harbour_url
                     Samples.start = (Ret (PJson JNull), w') /\
    cv_i w' = (cv_i Samples.start + 15)%nat /\
    trace w' = (failed_rounds MoreSamples.cv_flaky Samples.key Samples.harbour_url
                              (cv_i Samples.start) 0 15
                ++ trace Samples.start)%list.
Proof.
  apply (describe_picture_shares_one_budget
           MoreSamples.cv_flaky Samples.key Samples.harbour_url 20%nat Samples.start).
  - vm_compute. lia.
  - intros j Hj. unfold MoreSamples.cv_flaky.
    destruct (Nat.even (cv_i Samples.start + j)); repeat split; discriminate.
Defined.

(** X6 with the sample description. *)
Lemma describe_picture_returns_json_body_witness :
  describe_picture Samples.cv_fine Samples.key 1 Samples.harbour_url Samples.start
  = (Ret (PJson (Samples.analysis "a woman and two men" false)),
     {| wiki_i := 0; cv_i := 1; img_i := 0;
        trace := [EvPost CVAPI (JDict [("url", Samples.harbour_url)])] |}).
Proof.
  apply (describe_picture_returns_json_body
           Samples.cv_fine Samples.key Samples.harbour_url 1%nat Samples.start
           (Samples.described "a woman and two men" false)
           "application/json; charset=utf-8"
           (Samples.analysis "a woman and two men" false));
    try reflexivity; try lia.
  - left. reflexivity.
  - right. exists "142", 142. repeat split; first [reflexivity | discriminate].
Defined.

(** X13 with a server that sends a JPEG. *)
Lemma image_reply_makes_the_cycle_raise_witness :
  describe_picture MoreSamples.cv_image Samples.key 1 Samples.harbour_url
                   Samples.start
  = (Ret (PBytes "JFIF....."),
     {| wiki_i := 0; cv_i := 1; img_i := 0;
        trace := [EvPost CVAPI (JDict [("url", Samples.harbour_url)])] |}) /\
  (result <- describe_picture MoreSamples.cv_image Samples.key 1 Samples.harbour_url ;;
   judge Samples.word_filter Samples.good_info Samples.harbour_url result)
    Samples.start
  = (Raise TypeError,
     {| wiki_i := 0; cv_i := 1; img_i := 0;
        trace := [EvPost CVAPI (JDict [("url", Samples.harbour_url)])] |}).
Proof.
  apply (image_reply_makes_the_cycle_raise
           MoreSamples.cv_image Samples.key Samples.harbour_url
           Samples.word_filter Samples.good_info 1%nat Samples.start
           MoreSamples.image_reply "image/jpeg");
    try reflexivity; try lia.
  - left. reflexivity.
  - right. exists "9", 9. repeat split; first [reflexivity | discriminate].
Defined.

(** X7 on the run against the server that answers 429 and 503 in turn. *)
Lemma describe_picture_sleeps_at_most_15_times_witness :
  exists evs,
    trace (snd (describe_picture MoreSamples.cv_flaky Samples.key 20
                                 Samples.harbour_url Samples.start))
    = (evs ++ trace Samples.start)%list /\
    (List.length (filter is_sleep evs) <= 15)%nat /\
    forallb short_sleep evs = true.
Proof.
  exact (proj2 (proj2
           (describe_picture_sleeps_at_most_15_times
              MoreSamples.cv_flaky Samples.key Samples.harbour_url 20%nat
              Samples.start _ _ (surjective_pairing _)))).
Defined.

(** X8 on the run that succeeds at once: the picture has 123456 bytes and the
    Result carries its url. *)
Lemma result_url_is_thumbnail_of_big_pictures_witness :
  exists r w',
    get_picture_and_description Samples.word_filter Samples.wiki_good
      Samples.cv_fine Samples.key 3 20 Samples.start = (Ret r, w') /\
    url r = Samples.harbour_url /\
    exists w0 w1 pic size,
      get_random_picture Samples.word_filter Samples.wiki_good w0 = (Ret pic, w1) /\
      pic <> JNull /\
      Py.and_then (Py.getitem pic "size") Py.as_int = Val size /\
      Py.getitem pic (if 4000000 <? size then "thumburl" else "url")
      = Val (url r).
Proof.
  eexists. eexists. split; [vm_compute; reflexivity|].
  split; [reflexivity|].
  eapply result_url_is_thumbnail_of_big_pictures
    with (cvapi := Samples.cv_fine) (apikey := Samples.key) (fuel := 3%nat)
         (max_retries := 20) (w := Samples.start).
  vm_compute. reflexivity.
Defined.

(** X9 with a vision API that reports adult content twice and then describes
    the picture: the third cycle returns the Result. *)
Lemma first_cycle_that_is_not_rejected_decides_witness :
  rejected_cycles MoreSamples.cycle 2 Samples.start MoreSamples.third_cycle_start /\
  cycles MoreSamples.third_cycle_start = (cycles Samples.start + 2)%nat /\
  exists r w2,
    get_picture_and_description Samples.word_filter Samples.wiki_good
      MoreSamples.cv_third_fine Samples.key 3 5 Samples.start = (Ret r, w2) /\
    caption r = "a person and two people".
Proof.
  assert (R : rejected_cycles MoreSamples.cycle 2 Samples.start
                              MoreSamples.third_cycle_start).
  { apply rejected_more with (w1 := snd (MoreSamples.cycle Samples.start));
      [vm_compute; reflexivity|].
    apply rejected_more
      with (w1 := snd (MoreSamples.cycle
                         (after_notice (snd (MoreSamples.cycle Samples.start)))));
      [vm_compute; reflexivity|].
    apply rejected_none. }
  split; [exact R|].
  destruct (first_cycle_that_is_not_rejected_decides
              Samples.word_filter Samples.wiki_good MoreSamples.cv_third_fine
              Samples.key 3 5 2 Samples.start MoreSamples.third_cycle_start R)
    as (Hc & Hret & _); [lia | lia |].
  split; [exact Hc|].
  eexists. eexists. split.
  - apply Hret. vm_compute. reflexivity.
  - reflexivity.
Defined.

(** X10 with a media API that only offers drawings. *)
Lemma polling_for_a_picture_is_unbounded_witness :
  exists w',
    get_picture_and_description Samples.word_filter MoreSamples.wiki_drawings
      Samples.cv_fine Samples.key 6 20 Samples.start = (OutOfFuel, w') /\
    wiki_i w' = (wiki_i Samples.start + 6)%nat /\
    cv_i w' = cv_i Samples.start /\
    cycles w' = cycles Samples.start /\
    List.length (filter is_sleep (trace w'))
    = (List.length (filter is_sleep (trace Samples.start)) + 6)%nat.
Proof.
  apply (polling_for_a_picture_is_unbounded
           Samples.word_filter MoreSamples.wiki_drawings Samples.cv_fine Samples.key).
  - intros [a b c t]. eexists. reflexivity.
  - lia.
  - lia.
Defined.

(** X12 at a phrase of two spaces. *)
Lemma gender_neutralize_of_blank_phrase_witness :
  exists w', gender_neutralize (JStr "  ") Samples.start = (Ret EmptyString, w') /\
             ("  " = EmptyString -> w' = Samples.start).
Proof.
  apply (gender_neutralize_of_blank_phrase "  " Samples.start). reflexivity.
Defined.
